(** * AdvinstTool: cache-key normalisation and the tool-acquisition pipeline

    A shallow embedding of [src/advinsttool.ts] (class [AdvinstTool]).

    - JavaScript strings are modelled as [string]; the only separator the
      code splits on is the single character dot.
    - The asynchronous methods run strictly sequentially ([await] on every
      call), so they are modelled in a small monad that threads the log of
      interactions with the outside world and propagates thrown errors.
    - The outside world ([@actions/core], [@actions/exec],
      [@actions/tool-cache], [path] and the helpers imported from
      [./utils]) is a record of oracles; each oracle sees the log of
      everything that happened before it is asked. *)

From Stdlib Require Import String Ascii List ZArith Bool Arith Lia.
Import ListNotations.
Local Open Scope list_scope.
Local Open Scope string_scope.

(* ===================================================================== *)
(** ** JavaScript string primitives used by the class *)
(* ===================================================================== *)

Module JsString.

(** [s.split(c)] for a one-character separator [c].  The result is never
    empty: a string without separator is returned as its only component,
    and that includes the empty string, whose only component is the
    empty string. *)
Fixpoint split (sep : ascii) (s : string) : list string :=
  match s with
  | EmptyString => [EmptyString]
  | String c rest =>
      if Ascii.eqb c sep then EmptyString :: split sep rest
      else match split sep rest with
           | [] => [String c EmptyString]
           | p :: ps => String c p :: ps
           end
  end.

(** Truthiness of a string value: only the empty string is falsy. *)
Definition truthy (s : string) : bool :=
  match s with
  | EmptyString => false
  | String _ _ => true
  end.

(** Truthiness of a value that may be [undefined] ([None]). *)
Definition truthy_opt (o : option string) : bool :=
  match o with
  | None => false
  | Some s => truthy s
  end.

(** [util.format(template, ...args)] restricted to what the class uses:
    string arguments, the [%s] placeholder and the [%%] escape.  A
    placeholder without argument is left as it is; arguments without
    placeholder are appended, separated by one space. *)
Fixpoint format_go (t : string) (args : list string) : string * list string :=
  match t with
  | EmptyString => (EmptyString, args)
  | String c rest =>
      match rest with
      | String d rest' =>
          if Ascii.eqb c "%" then
            if Ascii.eqb d "s" then
              match args with
              | a :: args' =>
                  let (out, left) := format_go rest' args' in (a ++ out, left)
              | [] =>
                  let (out, left) := format_go rest' [] in
                  (String c (String d out), left)
              end
            else if Ascii.eqb d "%" then
              let (out, left) := format_go rest' args in (String "%" out, left)
            else
              let (out, left) := format_go rest args in (String c out, left)
          else
            let (out, left) := format_go rest args in (String c out, left)
      | EmptyString => (String c EmptyString, args)
      end
  end.

Definition format (t : string) (args : list string) : string :=
  let (out, left) := format_go t args in
  fold_left (fun acc a => acc ++ " " ++ a) left out.

End JsString.

(* ===================================================================== *)
(** ** The request and [normalizeVersionForCache] *)
(* ===================================================================== *)

(** The three private fields set by the constructor. *)
Record AdvinstTool : Type := mkAdvinstTool {
  version : string;
  license : string;
  enableCom : bool
}.

(** [normalizeVersionForCache(version)], branch for branch. *)
Definition normalizeVersionForCache (version : string) : string :=
  let parts := JsString.split "." version in
  if (3 <=? length parts)%nat then version
  else if (length parts =? 2)%nat then version ++ ".0"
  else if (length parts =? 1)%nat then version ++ ".0.0"
  else version.

(* ===================================================================== *)
(** ** The outside world *)
(* ===================================================================== *)

(** The outcome of a call that may throw (or of an awaited promise that may
    reject): a value, or an [Error] with its message. *)
Inductive result (A : Type) : Type :=
| Ok (a : A)
| Throw (msg : string).

Arguments Ok {A} a.
Arguments Throw {A} msg.

Definition is_ok {A : Type} (r : result A) : bool :=
  match r with
  | Ok _ => true
  | Throw _ => false
  end.

(** What [exec.getExecOutput] resolves to. *)
Record ExecOutput : Type := mkExecOutput {
  exitCode : Z;
  stdout : string;
  stderr : string
}.

(** The methods of the class whose invocation is recorded in the log. *)
Inductive method : Type :=
| MDownload
| MExtract
| MRegister
| MRegisterCom
| MExportVariables.

(** One entry of the log: a call into a library with its arguments and,
    where the library answers, the answer.  [ECall] is a marker written at
    the entry of a method of the class; it has no counterpart in the
    libraries and changes nothing in what the class does. *)
Inductive event : Type :=
| EInfo (msg : string)
| EFind (toolName versionSpec arch : string) (r : result string)
| EDownloadTool (url : string) (r : result string)
| ECacheDir (sourceDir tool version arch : string) (r : result string)
| EExec (cmd : string) (r : result ExecOutput)
| EExists (path : string) (r : result bool)
| EGetVariable (name : string) (r : result (option string))
| EGetRunnerTempDir (r : result string)
| EExportVariable (name val : string)
| EAddPath (inputPath : string)
| ECall (m : method) (args : list string).

Abbreviation trace := (list event).

(** The libraries the class imports.  Every answer may depend on the log so
    far, which makes the world as general as a deterministic environment
    can be: the same command may succeed once and fail the next time, the
    executable may exist only after the extraction, and so on.  [path.join]
    and [path.dirname] are pure.  [exists], [getVariable] and
    [getRunnerTempDir] come from [./utils]; only their use is known, so
    they are taken as oracles as well, [getVariable] answering a string or
    [undefined]. *)
Record World : Type := mkWorld {
  toolCache_find : trace -> string -> string -> string -> result string;
  toolCache_downloadTool : trace -> string -> result string;
  toolCache_cacheDir :
    trace -> string -> string -> string -> string -> result string;
  exec_getExecOutput : trace -> string -> result ExecOutput;
  utils_exists : trace -> string -> result bool;
  utils_getVariable : trace -> string -> result (option string);
  utils_getRunnerTempDir : trace -> result string;
  path_join : string -> string -> string;
  path_dirname : string -> string
}.

(* ===================================================================== *)
(** ** The monad: a log of events and thrown errors *)
(* ===================================================================== *)

(** A computation reads the log written before it started and returns its
    outcome together with the events it has written itself. *)
Definition M (A : Type) : Type := trace -> result A * trace.

Definition ret {A : Type} (a : A) : M A := fun _ => (Ok a, []).

Definition throw {A : Type} (msg : string) : M A := fun _ => (Throw msg, []).

Definition bind {A B : Type} (m : M A) (f : A -> M B) : M B :=
  fun h =>
    match m h with
    | (Ok a, es) =>
        match f a (h ++ es)%list with
        | (r, es') => (r, es ++ es')%list
        end
    | (Throw msg, es) => (Throw msg, es)
    end.

(** A call that answers nothing and cannot fail. *)
Definition emit (e : event) : M unit := fun _ => (Ok tt, [e]).

(** A call into a library: the answer is computed from the log so far and
    logged together with the call. *)
Definition ask {A : Type} (answer : trace -> result A)
    (entry : result A -> event) : M A :=
  fun h => (answer h, [entry (answer h)]).

Declare Scope monad_scope.
Delimit Scope monad_scope with monad.
Notation "x <- m ;; k" := (bind m (fun x => k))
  (at level 61, m at next level, right associativity) : monad_scope.
Notation "m ;; k" := (bind m (fun _ => k))
  (at level 61, right associativity) : monad_scope.
Local Open Scope monad_scope.

(* ===================================================================== *)
(** ** The class [AdvinstTool] *)
(* ===================================================================== *)

Module Const.

(** The double quote of the extraction command template. *)
Definition dq : string := String "034" EmptyString.

Definition advinstCustomUrlVar : string := "advancedinstaller_url".
Definition advinstDownloadUrlTemplate : string :=
  "https://www.advancedinstaller.com/downloads/%s/advinst.msi".
Definition advinstExtractCmdTemplate : string :=
  "msiexec /a " ++ dq ++ "%s" ++ dq ++ " TARGETDIR=" ++ dq ++ "%s" ++ dq
  ++ " /qn".
Definition advinstRegisterCmdTemplate : string := "%s /RegisterCI %s".
Definition advinstStartComCmdTemplate : string := "%s /REGSERVER".
Definition advinstComPathTemplate : string :=
  "%s\bin\x86\advancedinstaller.com".
Definition asdvinstMsbuildTagetPathTemplate : string :=
  "%s\ProgramFilesFolder\MSBuild\Caphyon\Advanced Installer".

Definition advinstCacheToolName : string := "advinst".
Definition advinstCacheToolArch : string := "x86".

Definition advinstMSBuildTargetsVar : string :=
  "AdvancedInstallerMSBuildTargets".
Definition advinstToolRootVar : string := "AdvancedInstallerRoot".

End Const.

Section Tool.

Variable w : World.
Variable self : AdvinstTool.

Import Const.

(** The library calls, each logging itself. *)
Definition core_info (msg : string) : M unit := emit (EInfo msg).
Definition core_exportVariable (name val : string) : M unit :=
  emit (EExportVariable name val).
Definition core_addPath (inputPath : string) : M unit :=
  emit (EAddPath inputPath).
Definition find (toolName versionSpec arch : string) : M string :=
  ask (fun h => toolCache_find w h toolName versionSpec arch)
      (EFind toolName versionSpec arch).
Definition downloadTool (url : string) : M string :=
  ask (fun h => toolCache_downloadTool w h url) (EDownloadTool url).
Definition cacheDir (sourceDir tool ver arch : string) : M string :=
  ask (fun h => toolCache_cacheDir w h sourceDir tool ver arch)
      (ECacheDir sourceDir tool ver arch).
Definition getExecOutput (cmd : string) : M ExecOutput :=
  ask (fun h => exec_getExecOutput w h cmd) (EExec cmd).
Definition exists_ (path : string) : M bool :=
  ask (fun h => utils_exists w h path) (EExists path).
Definition getVariable (name : string) : M (option string) :=
  ask (fun h => utils_getVariable w h name) (EGetVariable name).
Definition getRunnerTempDir : M string :=
  ask (fun h => utils_getRunnerTempDir w h) EGetRunnerTempDir.

(** The marker written when a method is entered. *)
Definition enter (m : method) (args : list string) : M unit :=
  emit (ECall m args).

(** [download()] *)
Definition download : M string :=
  enter MDownload [] ;;
  customUrl <- getVariable advinstCustomUrlVar ;;
  let fromTemplate :=
    core_info ("Downloading advinst tool with version: " ++ version self) ;;
    let url := JsString.format advinstDownloadUrlTemplate [version self] in
    downloadTool url in
  match customUrl with
  | Some url =>
      if JsString.truthy url then
        core_info (JsString.format "Using custom URL for advinst tool: %s" [url]) ;;
        downloadTool url
      else fromTemplate
  | None => fromTemplate
  end.

(** [extract(setupPath)] *)
Definition extract (setupPath : string) : M string :=
  enter MExtract [setupPath] ;;
  core_info "Extracting advinst tool" ;;
  tmp <- getRunnerTempDir ;;
  let extractFolder := path_join w tmp "advinst" in
  let cmd := JsString.format advinstExtractCmdTemplate [setupPath; extractFolder] in
  out <- getExecOutput cmd ;;
  if negb (exitCode out =? 0)%Z then throw (stdout out)
  else
    let normalizedVersion := normalizeVersionForCache (version self) in
    cacheDir extractFolder advinstCacheToolName normalizedVersion
             advinstCacheToolArch.

(** [register(toolPath)] *)
Definition register (toolPath : string) : M unit :=
  enter MRegister [toolPath] ;;
  if JsString.truthy (license self) then
    core_info "Registering advinst tool" ;;
    let cmd := JsString.format advinstRegisterCmdTemplate [toolPath; license self] in
    out <- getExecOutput cmd ;;
    if negb (exitCode out =? 0)%Z then throw (stdout out) else ret tt
  else ret tt.

(** [registerCom(toolPath)] *)
Definition registerCom (toolPath : string) : M unit :=
  enter MRegisterCom [toolPath] ;;
  if enableCom self then
    core_info "Enabling advinst COM interface" ;;
    let cmd := JsString.format advinstStartComCmdTemplate [toolPath] in
    out <- getExecOutput cmd ;;
    if negb (exitCode out =? 0)%Z then throw (stdout out) else ret tt
  else ret tt.

(** [exportVariables(toolRoot)] *)
Definition exportVariables (toolRoot : string) : M unit :=
  enter MExportVariables [toolRoot] ;;
  core_exportVariable advinstToolRootVar toolRoot ;;
  core_exportVariable advinstMSBuildTargetsVar
    (JsString.format asdvinstMsbuildTagetPathTemplate [toolRoot]).

(** [getPath()] *)
Definition getPath : M string :=
  core_info ("Checking cache for advinst tool with version: " ++ version self) ;;
  let normalizedVersion := normalizeVersionForCache (version self) in
  (if negb (normalizedVersion =? version self) then
     core_info ("Normalized version " ++ version self ++ " to "
                ++ normalizedVersion ++ " for tool-cache compatibility")
   else ret tt) ;;
  found <- find advinstCacheToolName normalizedVersion advinstCacheToolArch ;;
  toolRoot <- (if negb (JsString.truthy found) then
                 core_info "Tool not found in cache" ;;
                 setup <- download ;;
                 extract setup
               else
                 core_info "Tool found in cache" ;;
                 ret found) ;;
  let toolPath := JsString.format advinstComPathTemplate [toolRoot] in
  present <- exists_ toolPath ;;
  if negb present then
    throw (JsString.format "Expected to find %s, but it was not found." [toolPath])
  else
    register toolPath ;;
    registerCom toolPath ;;
    exportVariables toolRoot ;;
    core_addPath (path_dirname w toolPath) ;;
    ret toolPath.

End Tool.

(* ===================================================================== *)
(** ** Observations on a run *)
(* ===================================================================== *)

(** One invocation of [getPath()] on a fresh log. *)
Definition outcome (w : World) (self : AdvinstTool) : result string :=
  fst (getPath w self []).

Definition events (w : World) (self : AdvinstTool) : trace :=
  snd (getPath w self []).

Definition method_eqb (a b : method) : bool :=
  match a, b with
  | MDownload, MDownload => true
  | MExtract, MExtract => true
  | MRegister, MRegister => true
  | MRegisterCom, MRegisterCom => true
  | MExportVariables, MExportVariables => true
  | _, _ => false
  end.

(** The entry of method [m]. *)
Definition is_call (m : method) (e : event) : bool :=
  match e with
  | ECall m' _ => method_eqb m m'
  | _ => false
  end.

(** A mutation of the environment of the job: an exported variable or an
    entry added to the search path. *)
Definition is_env_mutation (e : event) : bool :=
  match e with
  | EExportVariable _ _ => true
  | EAddPath _ => true
  | _ => false
  end.

(** A registration call: the entry of [register] or of [registerCom]. *)
Definition is_registration (e : event) : bool :=
  is_call MRegister e || is_call MRegisterCom e.

(** How many events of [tr] satisfy [p]. *)
Definition count (p : event -> bool) (tr : trace) : nat :=
  length (filter p tr).

(** No event of [tr] satisfies [p]. *)
Definition never (p : event -> bool) (tr : trace) : Prop :=
  count p tr = 0.

(** The keys (tool name, version, architecture) of the reads from the
    store, [toolCache.find], in the order of the log. *)
Fixpoint lookup_keys (tr : trace) : list (string * string * string) :=
  match tr with
  | [] => []
  | EFind n v a _ :: tr' => (n, v, a) :: lookup_keys tr'
  | _ :: tr' => lookup_keys tr'
  end.

(** The keys of the writes to the store, [toolCache.cacheDir]. *)
Fixpoint write_keys (tr : trace) : list (string * string * string) :=
  match tr with
  | [] => []
  | ECacheDir _ n v a _ :: tr' => (n, v, a) :: write_keys tr'
  | _ :: tr' => write_keys tr'
  end.

(** The locations asked from [toolCache.downloadTool]. *)
Fixpoint download_urls (tr : trace) : list string :=
  match tr with
  | [] => []
  | EDownloadTool url _ :: tr' => url :: download_urls tr'
  | _ :: tr' => download_urls tr'
  end.

(** The external commands run, in order. *)
Fixpoint commands (tr : trace) : list string :=
  match tr with
  | [] => []
  | EExec cmd _ :: tr' => cmd :: commands tr'
  | _ :: tr' => commands tr'
  end.

(** The milestones of a run: the entries of the methods and the existence
    checks, in the order of the log. *)
Definition is_milestone (e : event) : bool :=
  match e with
  | ECall _ _ => true
  | EExists _ _ => true
  | _ => false
  end.

Definition milestones (tr : trace) : trace := filter is_milestone tr.

(** The last event of a log. *)
Fixpoint last_event (tr : trace) : option event :=
  match tr with
  | [] => None
  | [e] => Some e
  | _ :: tr' => last_event tr'
  end.

(** [l] is an initial segment of [l']. *)
Definition prefix_of (l l' : trace) : Prop := exists rest, l' = (l ++ rest)%list.

(** The key [getPath] is expected to use for a request. *)
Definition cache_key (self : AdvinstTool) : string * string * string :=
  (Const.advinstCacheToolName,
   normalizeVersionForCache (version self),
   Const.advinstCacheToolArch).

(** The strings the class builds with [util.format] from its templates,
    written out; the lemmas [format_exe_path], [format_register_cmd] and
    their companions show that they are the formatted templates. *)

(** The commands of the two registration steps for an executable. *)
Definition register_cmd (self : AdvinstTool) (toolPath : string) : string :=
  toolPath ++ " /RegisterCI " ++ license self.

Definition registerCom_cmd (toolPath : string) : string :=
  toolPath ++ " /REGSERVER".

(** The expected executable under a root. *)
Definition exe_path (toolRoot : string) : string :=
  toolRoot ++ "\bin\x86\advancedinstaller.com".

(** The default download location of a version. *)
Definition default_url (ver : string) : string :=
  "https://www.advancedinstaller.com/downloads/" ++ ver ++ "/advinst.msi".

(** The build-integration path under a root. *)
Definition msbuild_targets_path (toolRoot : string) : string :=
  toolRoot ++ "\ProgramFilesFolder\MSBuild\Caphyon\Advanced Installer".

(** The message of the error raised when the executable is missing. *)
Definition not_found_message (toolPath : string) : string :=
  "Expected to find " ++ toolPath ++ ", but it was not found.".

(** How [register] and [registerCom] end, given the answer of the command
    runner: an exit code other than 0 raises the standard output. *)
Definition exit_outcome (ans : result ExecOutput) : result unit :=
  match ans with
  | Ok out => if (exitCode out =? 0)%Z then Ok tt else Throw (stdout out)
  | Throw msg => Throw msg
  end.

(** The milestones of a complete run once the root is known: the existence
    check with its answer, then the two registration steps and the export. *)
Definition hit_plan (toolRoot : string) (present : result bool) : trace :=
  [EExists (exe_path toolRoot) present;
   ECall MRegister [exe_path toolRoot];
   ECall MRegisterCom [exe_path toolRoot];
   ECall MExportVariables [toolRoot]].

(** The milestones of a complete run that has to acquire the tool. *)
Definition miss_plan (setup toolRoot : string) (present : result bool) : trace :=
  ECall MDownload [] :: ECall MExtract [setup] :: hit_plan toolRoot present.

(* ===================================================================== *)
(** ** The phases of [getPath] *)
(* ===================================================================== *)

(** [getPath] is one method; for the proofs its body is cut in three:
    the messages before the lookup, the resolution of the root from the
    answer of the store (lines 86 to 92), and everything from the
    computation of the executable path on (lines 95 to 109).
    [getPath_phases] below shows that the three, run one after the other,
    are the method. *)
Section Phases.

Variable w : World.
Variable self : AdvinstTool.

Import Const.

Definition prologue : M unit :=
  core_info ("Checking cache for advinst tool with version: " ++ version self) ;;
  if negb (normalizeVersionForCache (version self) =? version self) then
    core_info ("Normalized version " ++ version self ++ " to "
               ++ normalizeVersionForCache (version self)
               ++ " for tool-cache compatibility")
  else ret tt.

Definition resolve (found : string) : M string :=
  if negb (JsString.truthy found) then
    core_info "Tool not found in cache" ;;
    setup <- download w self ;;
    extract w self setup
  else
    core_info "Tool found in cache" ;;
    ret found.

Definition finish (toolRoot : string) : M string :=
  let toolPath := JsString.format advinstComPathTemplate [toolRoot] in
  present <- exists_ w toolPath ;;
  if negb present then
    throw (JsString.format "Expected to find %s, but it was not found." [toolPath])
  else
    register w self toolPath ;;
    registerCom w self toolPath ;;
    exportVariables toolRoot ;;
    core_addPath (path_dirname w toolPath) ;;
    ret toolPath.

End Phases.

(* ===================================================================== *)
(** ** The runs of the methods, as relations *)
(* ===================================================================== *)

(** For every method: the outcomes it can have with the events it then has
    logged, one constructor for each way through its body.  The relations
    are a proof device; [getPath_sound] and its companions below show that
    every run of the methods is one of these. *)
Section Runs.

Variable w : World.
Variable self : AdvinstTool.

Import Const.

(** The extraction command, the template of the class with its two
    placeholders filled in ([format_extract_cmd]). *)
Definition extract_cmd (setupPath extractFolder : string) : string :=
  "msiexec /a " ++ dq ++ setupPath ++ dq ++ " TARGETDIR=" ++ dq
  ++ extractFolder ++ dq ++ " /qn".

(** The folder the installer is extracted to. *)
Definition extract_folder (tmp : string) : string := path_join w tmp "advinst".

(** The messages logged before the lookup. *)
Definition prologue_events : trace :=
  EInfo ("Checking cache for advinst tool with version: " ++ version self)
  :: (if negb (normalizeVersionForCache (version self) =? version self) then
        [EInfo ("Normalized version " ++ version self ++ " to "
                ++ normalizeVersionForCache (version self)
                ++ " for tool-cache compatibility")]
      else []).

(** What [exportVariables] logs. *)
Definition export_events (toolRoot : string) : trace :=
  [ECall MExportVariables [toolRoot];
   EExportVariable advinstToolRootVar toolRoot;
   EExportVariable advinstMSBuildTargetsVar (msbuild_targets_path toolRoot)].

Inductive download_run : result string -> trace -> Prop :=
| dl_variable_throws (msg : string) :
    download_run (Throw msg)
      [ECall MDownload []; EGetVariable advinstCustomUrlVar (Throw msg)]
| dl_custom (url : string) (r : result string) :
    JsString.truthy url = true ->
    download_run r
      [ECall MDownload [];
       EGetVariable advinstCustomUrlVar (Ok (Some url));
       EInfo (JsString.format "Using custom URL for advinst tool: %s" [url]);
       EDownloadTool url r]
| dl_default (customUrl : option string) (r : result string) :
    JsString.truthy_opt customUrl = false ->
    download_run r
      [ECall MDownload [];
       EGetVariable advinstCustomUrlVar (Ok customUrl);
       EInfo ("Downloading advinst tool with version: " ++ version self);
       EDownloadTool (default_url (version self)) r].

Inductive extract_run (setupPath : string) : result string -> trace -> Prop :=
| ex_temp_throws (msg : string) :
    extract_run setupPath (Throw msg)
      [ECall MExtract [setupPath];
       EInfo "Extracting advinst tool";
       EGetRunnerTempDir (Throw msg)]
| ex_command (tmp : string) (ans : result ExecOutput) (msg : string) :
    exit_outcome ans = Throw msg ->
    extract_run setupPath (Throw msg)
      [ECall MExtract [setupPath];
       EInfo "Extracting advinst tool";
       EGetRunnerTempDir (Ok tmp);
       EExec (extract_cmd setupPath (extract_folder tmp)) ans]
| ex_cached (tmp : string) (ans : result ExecOutput) (r : result string) :
    exit_outcome ans = Ok tt ->
    extract_run setupPath r
      [ECall MExtract [setupPath];
       EInfo "Extracting advinst tool";
       EGetRunnerTempDir (Ok tmp);
       EExec (extract_cmd setupPath (extract_folder tmp)) ans;
       ECacheDir (extract_folder tmp) advinstCacheToolName
         (normalizeVersionForCache (version self)) advinstCacheToolArch r].

Inductive register_run (toolPath : string) : result unit -> trace -> Prop :=
| reg_skipped :
    JsString.truthy (license self) = false ->
    register_run toolPath (Ok tt) [ECall MRegister [toolPath]]
| reg_command (ans : result ExecOutput) :
    JsString.truthy (license self) = true ->
    register_run toolPath (exit_outcome ans)
      [ECall MRegister [toolPath];
       EInfo "Registering advinst tool";
       EExec (register_cmd self toolPath) ans].

Inductive registerCom_run (toolPath : string) : result unit -> trace -> Prop :=
| com_skipped :
    enableCom self = false ->
    registerCom_run toolPath (Ok tt) [ECall MRegisterCom [toolPath]]
| com_command (ans : result ExecOutput) :
    enableCom self = true ->
    registerCom_run toolPath (exit_outcome ans)
      [ECall MRegisterCom [toolPath];
       EInfo "Enabling advinst COM interface";
       EExec (registerCom_cmd toolPath) ans].

Inductive resolve_run (found : string) : result string -> trace -> Prop :=
| res_hit :
    JsString.truthy found = true ->
    resolve_run found (Ok found) [EInfo "Tool found in cache"]
| res_download_fails (msg : string) (es : trace) :
    JsString.truthy found = false ->
    download_run (Throw msg) es ->
    resolve_run found (Throw msg) (EInfo "Tool not found in cache" :: es)
| res_extract (setup : string) (r : result string) (es1 es2 : trace) :
    JsString.truthy found = false ->
    download_run (Ok setup) es1 ->
    extract_run setup r es2 ->
    resolve_run found r (EInfo "Tool not found in cache" :: es1 ++ es2).

Inductive finish_run (toolRoot : string) : result string -> trace -> Prop :=
| fin_check_throws (msg : string) :
    finish_run toolRoot (Throw msg) [EExists (exe_path toolRoot) (Throw msg)]
| fin_missing :
    finish_run toolRoot (Throw (not_found_message (exe_path toolRoot)))
      [EExists (exe_path toolRoot) (Ok false)]
| fin_register_fails (msg : string) (es : trace) :
    register_run (exe_path toolRoot) (Throw msg) es ->
    finish_run toolRoot (Throw msg) (EExists (exe_path toolRoot) (Ok true) :: es)
| fin_com_fails (msg : string) (es1 es2 : trace) :
    register_run (exe_path toolRoot) (Ok tt) es1 ->
    registerCom_run (exe_path toolRoot) (Throw msg) es2 ->
    finish_run toolRoot (Throw msg)
      (EExists (exe_path toolRoot) (Ok true) :: es1 ++ es2)
| fin_done (es1 es2 : trace) :
    register_run (exe_path toolRoot) (Ok tt) es1 ->
    registerCom_run (exe_path toolRoot) (Ok tt) es2 ->
    finish_run toolRoot (Ok (exe_path toolRoot))
      (EExists (exe_path toolRoot) (Ok true)
       :: es1 ++ es2 ++ export_events toolRoot
          ++ [EAddPath (path_dirname w (exe_path toolRoot))]).

Inductive getPath_run : result string -> trace -> Prop :=
| gp_lookup_throws (msg : string) :
    getPath_run (Throw msg)
      (prologue_events
       ++ [EFind advinstCacheToolName (normalizeVersionForCache (version self))
             advinstCacheToolArch (Throw msg)])
| gp_unresolved (found msg : string) (es : trace) :
    resolve_run found (Throw msg) es ->
    getPath_run (Throw msg)
      (prologue_events
       ++ EFind advinstCacheToolName (normalizeVersionForCache (version self))
            advinstCacheToolArch (Ok found) :: es)
| gp_resolved (found toolRoot : string) (r : result string) (es1 es2 : trace) :
    resolve_run found (Ok toolRoot) es1 ->
    finish_run toolRoot r es2 ->
    getPath_run r
      (prologue_events
       ++ EFind advinstCacheToolName (normalizeVersionForCache (version self))
            advinstCacheToolArch (Ok found) :: es1 ++ es2).

End Runs.

(* ===================================================================== *)
(** ** The conditions and the statements the claims speak of *)
(* ===================================================================== *)

(** The lookup in the store, made with the key of the request, was answered
    with [found]. *)
Definition store_answered (self : AdvinstTool) (found : result string)
    (tr : trace) : Prop :=
  In (EFind Const.advinstCacheToolName (normalizeVersionForCache (version self))
        Const.advinstCacheToolArch found) tr.

(** A cache hit: the store answered a root, a non-empty string. *)
Definition cache_hit (self : AdvinstTool) (toolRoot : string) (tr : trace) : Prop :=
  store_answered self (Ok toolRoot) tr /\ JsString.truthy toolRoot = true.

(** A cache miss: the store answered the empty string. *)
Definition cache_miss (self : AdvinstTool) (tr : trace) : Prop :=
  store_answered self (Ok "") tr.


(** The cache-miss path as the specification words it: on every miss
    [download] is invoked exactly once, then [extract] exactly once, and the
    executable under the resulting root is checked before any registration
    call. *)
Definition cache_miss_as_specified (w : World) (self : AdvinstTool) : Prop :=
  cache_miss self (events w self) ->
  count (is_call MDownload) (events w self) = 1 /\
  count (is_call MExtract) (events w self) = 1 /\
  exists setup toolRoot present,
    prefix_of [ECall MDownload []; ECall MExtract [setup];
               EExists (exe_path toolRoot) present]
      (milestones (events w self)).

(* ===================================================================== *)
(** ** Concrete worlds *)
(* ===================================================================== *)

(** [path.dirname] for the backslash-separated paths of the concrete
    worlds: everything before the last backslash. *)
Fixpoint dirname_go (p : string) : option string :=
  match p with
  | EmptyString => None
  | String c rest =>
      match dirname_go rest with
      | Some d => Some (String c d)
      | None => if Ascii.eqb c "\" then Some EmptyString else None
      end
  end.

Definition dirname_win32 (p : string) : string :=
  match dirname_go p with
  | Some d => d
  | None => "."
  end.

(** A world whose answers do not depend on the log. *)
Definition staticWorld (found : result string) (custom : result (option string))
    (setup : result string) (run : string -> result ExecOutput)
    (cached : result string) (present : string -> result bool) : World :=
  {| toolCache_find := fun _ _ _ _ => found;
     toolCache_downloadTool := fun _ _ => setup;
     toolCache_cacheDir := fun _ _ _ _ _ => cached;
     exec_getExecOutput := fun _ cmd => run cmd;
     utils_exists := fun _ p => present p;
     utils_getVariable := fun _ _ => custom;
     utils_getRunnerTempDir := fun _ => Ok "D:\a\_temp";
     path_join := fun a b => a ++ "\" ++ b;
     path_dirname := dirname_win32 |}.

Definition success : ExecOutput := mkExecOutput 0 "" "".
Definition failure (out : string) : ExecOutput := mkExecOutput 1 out "".

(** The store holds the tool and the executable is where it should be. *)
Definition world_hit : World :=
  staticWorld (Ok "C:\tc\advinst\3.5.1\x86") (Ok None) (Ok "D:\a\_temp\setup")
    (fun _ => Ok success) (Ok "C:\tc\advinst\2.0.0\x86") (fun _ => Ok true).

(** The store holds an entry, but the executable is gone. *)
Definition world_hit_no_exe : World :=
  staticWorld (Ok "C:\tc\advinst\3.5.1\x86") (Ok None) (Ok "D:\a\_temp\setup")
    (fun _ => Ok success) (Ok "C:\tc\advinst\2.0.0\x86") (fun _ => Ok false).

(** The store holds nothing; download, extraction and commands succeed. *)
Definition world_miss : World :=
  staticWorld (Ok "") (Ok None) (Ok "D:\a\_temp\setup")
    (fun _ => Ok success) (Ok "C:\tc\advinst\2.0.0\x86") (fun _ => Ok true).

(** The store holds nothing and the download fails. *)
Definition world_miss_no_network : World :=
  staticWorld (Ok "") (Ok None) (Throw "Unexpected HTTP response: 404")
    (fun _ => Ok success) (Ok "C:\tc\advinst\2.0.0\x86") (fun _ => Ok true).

(** The store holds the tool, but every external command fails. *)
Definition world_hit_cmd_fails : World :=
  staticWorld (Ok "C:\tc\advinst\3.5.1\x86") (Ok None) (Ok "D:\a\_temp\setup")
    (fun _ => Ok (failure "license rejected")) (Ok "C:\tc\advinst\2.0.0\x86")
    (fun _ => Ok true).


(** The store holds nothing, download and extraction succeed, but the
    extracted tree has no executable. *)
Definition world_miss_no_exe : World :=
  staticWorld (Ok "") (Ok None) (Ok "D:\a\_temp\setup")
    (fun _ => Ok success) (Ok "C:\tc\advinst\2.0.0\x86") (fun _ => Ok false).

Definition root_351 : string := "C:\tc\advinst\3.5.1\x86".
Definition root_200 : string := "C:\tc\advinst\2.0.0\x86".

Definition tool_2 : AdvinstTool := mkAdvinstTool "2" "" false.
Definition tool_21 : AdvinstTool := mkAdvinstTool "2.1" "" false.
Definition tool_210 : AdvinstTool := mkAdvinstTool "2.1.0" "" false.
Definition tool_351 : AdvinstTool := mkAdvinstTool "3.5.1" "KEY" false.
Definition tool_com : AdvinstTool := mkAdvinstTool "2.1" "KEY" true.
(** The store holds nothing and the installer engine exits with code 1. *)
Definition world_miss_cmd_fails : World :=
  staticWorld (Ok "") (Ok None) (Ok "D:\a\_temp\setup")
    (fun _ => Ok (failure "msiexec: error 1603")) (Ok "C:\tc\advinst\2.0.0\x86")
    (fun _ => Ok true).

(* ===================================================================== *)
(** ** Further observations *)
(* ===================================================================== *)

(** Components padded with zero components up to three. *)
Definition pad_components (parts : list string) : list string :=
  (parts ++ repeat "0" (3 - length parts))%list.

(** The message [getPath] logs when the normalised version differs from
    the requested one. *)
Definition normalization_notice (self : AdvinstTool) : string :=
  "Normalized version " ++ version self ++ " to "
  ++ normalizeVersionForCache (version self)
  ++ " for tool-cache compatibility".

(** The message of the error a library call has thrown, if it has. *)
Definition thrown (e : event) : option string :=
  match e with
  | EFind _ _ _ (Throw msg) => Some msg
  | EDownloadTool _ (Throw msg) => Some msg
  | ECacheDir _ _ _ _ (Throw msg) => Some msg
  | EExec _ (Throw msg) => Some msg
  | EExists _ (Throw msg) => Some msg
  | EGetVariable _ (Throw msg) => Some msg
  | EGetRunnerTempDir (Throw msg) => Some msg
  | _ => None
  end.

(** A message written with [core.info]. *)
Definition is_info (e : event) : bool :=
  match e with
  | EInfo _ => true
  | _ => false
  end.

(** The log from its first event that is not a message on. *)
Fixpoint skip_info (tr : trace) : trace :=
  match tr with
  | [] => []
  | e :: tr' => if is_info e then skip_info tr' else tr
  end.

(** The mutations of the environment, in the order of the log. *)
Definition env_mutations (tr : trace) : trace := filter is_env_mutation tr.

(** The paths whose existence was checked. *)
Fixpoint exists_checks (tr : trace) : list string :=
  match tr with
  | [] => []
  | EExists p _ :: tr' => p :: exists_checks tr'
  | _ :: tr' => exists_checks tr'
  end.

(** An interaction that belongs to the acquisition of the tool: the entry
    of [download] or [extract], a read of the custom URL variable or of the
    temporary directory, a download, a write to the store. *)
Definition is_acquisition (e : event) : bool :=
  match e with
  | ECall MDownload _ => true
  | ECall MExtract _ => true
  | EGetVariable _ _ => true
  | EGetRunnerTempDir _ => true
  | EDownloadTool _ _ => true
  | ECacheDir _ _ _ _ _ => true
  | _ => false
  end.

(** The registration commands of a request for an executable, in the order
    [getPath] runs them. *)
Definition registration_cmds (self : AdvinstTool) (toolPath : string)
    : list string :=
  ((if JsString.truthy (license self) then [register_cmd self toolPath] else [])
   ++ (if enableCom self then [registerCom_cmd toolPath] else []))%list.

(* ===================================================================== *)
(** ** Facts about [split] *)
(* ===================================================================== *)

Section SplitFacts.

Variable sep : ascii.

Lemma split_nonempty (s : string) : JsString.split sep s <> [].
Proof.
  induction s as [|c s IH]; simpl; [discriminate|].
  destruct (Ascii.eqb c sep); [discriminate|].
  destruct (JsString.split sep s); discriminate.
Qed.

Lemma split_length_pos (s : string) : 1 <= length (JsString.split sep s).
Proof.
  pose proof (split_nonempty s) as H.
  destruct (JsString.split sep s); [congruence | simpl; lia].
Qed.

Lemma split_cons_length (c : ascii) (s : string) :
  length (JsString.split sep (String c s)) =
  (if Ascii.eqb c sep then 1 else 0) + length (JsString.split sep s).
Proof.
  simpl. destruct (Ascii.eqb c sep); [reflexivity|].
  pose proof (split_nonempty s) as H.
  destruct (JsString.split sep s); [congruence | reflexivity].
Qed.

(** Appending joins the last component of the left string with the first
    component of the right one. *)
Lemma split_app_length (a b : string) :
  length (JsString.split sep (a ++ b)) + 1 =
  length (JsString.split sep a) + length (JsString.split sep b).
Proof.
  induction a as [|c a IH].
  - simpl. lia.
  - change (String c a ++ b) with (String c (a ++ b)).
    rewrite !split_cons_length. lia.
Qed.

End SplitFacts.

Lemma split_dot_app_dot0 (v : string) :
  length (JsString.split "." (v ++ ".0")) = S (length (JsString.split "." v)).
Proof.
  pose proof (split_app_length "." v ".0") as H.
  change (length (JsString.split "." ".0")) with 2 in H. lia.
Qed.

Lemma split_dot_app_dot00 (v : string) :
  length (JsString.split "." (v ++ ".0.0")) = S (S (length (JsString.split "." v))).
Proof.
  pose proof (split_app_length "." v ".0.0") as H.
  change (length (JsString.split "." ".0.0")) with 3 in H. lia.
Qed.

(** The three reachable branches, as equations. *)
Lemma normalize_ge3 (v : string) :
  3 <= length (JsString.split "." v) -> normalizeVersionForCache v = v.
Proof.
  intros H. unfold normalizeVersionForCache.
  apply Nat.leb_le in H. rewrite H. reflexivity.
Qed.

Lemma normalize_eq2 (v : string) :
  length (JsString.split "." v) = 2 -> normalizeVersionForCache v = v ++ ".0".
Proof.
  intros H. unfold normalizeVersionForCache. rewrite H. reflexivity.
Qed.

Lemma normalize_eq1 (v : string) :
  length (JsString.split "." v) = 1 -> normalizeVersionForCache v = v ++ ".0.0".
Proof.
  intros H. unfold normalizeVersionForCache. rewrite H. reflexivity.
Qed.

(** Whatever the input, the result has at least three components. *)
Lemma normalize_components (v : string) :
  3 <= length (JsString.split "." (normalizeVersionForCache v)).
Proof.
  pose proof (split_length_pos "." v) as Hpos.
  destruct (le_lt_dec 3 (length (JsString.split "." v))) as [H3|H3].
  - rewrite normalize_ge3; assumption.
  - destruct (Nat.eq_dec (length (JsString.split "." v)) 2) as [H2|H2].
    + rewrite normalize_eq2 by assumption. rewrite split_dot_app_dot0. lia.
    + rewrite normalize_eq1 by lia. rewrite split_dot_app_dot00. lia.
Qed.

(* ===================================================================== *)
(** ** Claims about [normalizeVersionForCache] *)
(* ===================================================================== *)

Example normalize_major : normalizeVersionForCache "2" = "2.0.0".
Proof. reflexivity. Qed.

Example normalize_major_minor : normalizeVersionForCache "2.1" = "2.1.0".
Proof. reflexivity. Qed.

Example normalize_full : normalizeVersionForCache "3.5.1" = "3.5.1".
Proof. reflexivity. Qed.

Example normalize_four : normalizeVersionForCache "21.3.1.0" = "21.3.1.0".
Proof. reflexivity. Qed.

(** C4, as stated, fails: the empty string splits into one (empty)
    component, so the single-component branch applies and the result is
    not the empty string. *)
Lemma empty_version_is_changed : normalizeVersionForCache "" <> "".
Proof. vm_compute. discriminate. Qed.

(** C4 (amended): [split] never yields zero components, so the final
    return-unchanged fallback is unreachable; the empty string has exactly
    one component and [normalizeVersionForCache ""] is [".0.0"]. *)
Theorem normalize_empty :
  (forall v, 1 <= length (JsString.split "." v)) /\
  length (JsString.split "." "") = 1 /\
  normalizeVersionForCache "" = ".0.0".
Proof.
  split; [|split; reflexivity].
  intros v. apply split_length_pos.
Qed.

(** C5: the branch policy.  Three or more components: unchanged; exactly
    two: [".0"] appended; exactly one (non-empty input): [".0.0"]
    appended. *)
Theorem normalize_branch_policy (v : string) :
  (3 <= length (JsString.split "." v) -> normalizeVersionForCache v = v) /\
  (length (JsString.split "." v) = 2 -> normalizeVersionForCache v = v ++ ".0") /\
  (v <> "" -> length (JsString.split "." v) = 1 ->
   normalizeVersionForCache v = v ++ ".0.0").
Proof.
  split; [|split].
  - apply normalize_ge3.
  - apply normalize_eq2.
  - intros _. apply normalize_eq1.
Qed.

Lemma normalize_branch_policy_witness :
  (3 <= length (JsString.split "." "21.3.1.0") /\
   normalizeVersionForCache "21.3.1.0" = "21.3.1.0") /\
  (length (JsString.split "." "2.1") = 2 /\
   normalizeVersionForCache "2.1" = "2.1" ++ ".0") /\
  ("2" <> "" /\ length (JsString.split "." "2") = 1 /\
   normalizeVersionForCache "2" = "2" ++ ".0.0").
Proof.
  split; [|split].
  - split; [simpl; lia|].
    apply (proj1 (normalize_branch_policy "21.3.1.0")). simpl; lia.
  - split; [reflexivity|].
    apply (proj1 (proj2 (normalize_branch_policy "2.1"))). reflexivity.
  - split; [discriminate|]. split; [reflexivity|].
    apply (proj2 (proj2 (normalize_branch_policy "2"))); [discriminate|reflexivity].
Defined.

(** C6: normalisation is idempotent. *)
Theorem normalize_idempotent (v : string) :
  normalizeVersionForCache (normalizeVersionForCache v) =
  normalizeVersionForCache v.
Proof.
  apply normalize_ge3, normalize_components.
Qed.


(* ===================================================================== *)
(** ** Facts about the formatted strings *)
(* ===================================================================== *)

Lemma append_empty_r (s : string) : s ++ "" = s.
Proof.
  induction s as [|c s IH]; simpl; [reflexivity | now rewrite IH].
Qed.

Lemma format_exe_path (toolRoot : string) :
  JsString.format Const.advinstComPathTemplate [toolRoot] = exe_path toolRoot.
Proof. reflexivity. Qed.

Lemma format_not_found (toolPath : string) :
  JsString.format "Expected to find %s, but it was not found." [toolPath] =
  not_found_message toolPath.
Proof. reflexivity. Qed.

Lemma format_default_url (ver : string) :
  JsString.format Const.advinstDownloadUrlTemplate [ver] = default_url ver.
Proof. reflexivity. Qed.

Lemma format_register_cmd (self : AdvinstTool) (toolPath : string) :
  JsString.format Const.advinstRegisterCmdTemplate [toolPath; license self] =
  register_cmd self toolPath.
Proof.
  unfold JsString.format, register_cmd. cbn.
  now rewrite append_empty_r.
Qed.

Lemma format_registerCom_cmd (toolPath : string) :
  JsString.format Const.advinstStartComCmdTemplate [toolPath] =
  registerCom_cmd toolPath.
Proof. reflexivity. Qed.

(* ===================================================================== *)
(** ** Running the monad *)
(* ===================================================================== *)

Section Run.

Context {A B : Type}.

Lemma outcome_bind (m : M A) (f : A -> M B) (h : trace) :
  fst (bind m f h) =
  match fst (m h) with
  | Ok a => fst (f a (h ++ snd (m h))%list)
  | Throw msg => Throw msg
  end.
Proof.
  unfold bind. destruct (m h) as [[a|msg] es]; simpl; [|reflexivity].
  destruct (f a (h ++ es)%list); reflexivity.
Qed.

Lemma events_bind (m : M A) (f : A -> M B) (h : trace) :
  snd (bind m f h) =
  (snd (m h) ++
   match fst (m h) with
   | Ok a => snd (f a (h ++ snd (m h))%list)
   | Throw _ => []
   end)%list.
Proof.
  unfold bind. destruct (m h) as [[a|msg] es]; simpl.
  - destruct (f a (h ++ es)%list); reflexivity.
  - now rewrite app_nil_r.
Qed.

End Run.

Lemma bind_assoc {A B C : Type} (m : M A) (f : A -> M B) (g : B -> M C)
    (h : trace) :
  bind (bind m f) g h = bind m (fun x => bind (f x) g) h.
Proof.
  unfold bind. destruct (m h) as [[a|msg] es]; [|reflexivity].
  destruct (f a (h ++ es)%list) as [[b|msg] es']; [|reflexivity].
  rewrite <- app_assoc.
  destruct (g b (h ++ es ++ es')%list) as [r es''].
  now rewrite <- app_assoc.
Qed.

(* ===================================================================== *)
(** ** What each method logs *)
(* ===================================================================== *)

(** Unfolding the methods down to the oracles. *)
Ltac run_methods :=
  cbv beta iota zeta delta
    [getPath prologue resolve finish download extract register registerCom
     exportVariables enter core_info core_exportVariable core_addPath find
     downloadTool cacheDir getExecOutput exists_ getVariable getRunnerTempDir
     bind ask emit ret throw].

(** Tidying the log after a case has been decided. *)
Ltac tidy :=
  cbv beta iota zeta;
  cbn [app fst snd negb];
  rewrite <- ?app_assoc;
  cbn [app].

Section Methods.

Variable w : World.
Variable self : AdvinstTool.

Lemma exportVariables_run (toolRoot : string) (h : trace) :
  exportVariables toolRoot h =
  (Ok tt,
   [ECall MExportVariables [toolRoot];
    EExportVariable Const.advinstToolRootVar toolRoot;
    EExportVariable Const.advinstMSBuildTargetsVar
      (msbuild_targets_path toolRoot)]).
Proof. reflexivity. Qed.

Lemma register_without_license (toolPath : string) (h : trace) :
  JsString.truthy (license self) = false ->
  register w self toolPath h = (Ok tt, [ECall MRegister [toolPath]]).
Proof. intros Hl. run_methods. rewrite Hl. reflexivity. Qed.

Lemma register_with_license (toolPath : string) (h : trace) :
  JsString.truthy (license self) = true ->
  let ans :=
    exec_getExecOutput w
      (h ++ [ECall MRegister [toolPath]; EInfo "Registering advinst tool"])
      (register_cmd self toolPath) in
  register w self toolPath h =
  (exit_outcome ans,
   [ECall MRegister [toolPath];
    EInfo "Registering advinst tool";
    EExec (register_cmd self toolPath) ans]).
Proof.
  intros Hl. run_methods. rewrite Hl, format_register_cmd. tidy.
  unfold exit_outcome.
  destruct (exec_getExecOutput w _ _) as [out|msg]; [|reflexivity].
  destruct (exitCode out =? 0)%Z; reflexivity.
Qed.

Lemma registerCom_disabled (toolPath : string) (h : trace) :
  enableCom self = false ->
  registerCom w self toolPath h = (Ok tt, [ECall MRegisterCom [toolPath]]).
Proof. intros Hc. run_methods. rewrite Hc. reflexivity. Qed.

Lemma registerCom_enabled (toolPath : string) (h : trace) :
  enableCom self = true ->
  let ans :=
    exec_getExecOutput w
      (h ++ [ECall MRegisterCom [toolPath];
             EInfo "Enabling advinst COM interface"])
      (registerCom_cmd toolPath) in
  registerCom w self toolPath h =
  (exit_outcome ans,
   [ECall MRegisterCom [toolPath];
    EInfo "Enabling advinst COM interface";
    EExec (registerCom_cmd toolPath) ans]).
Proof.
  intros Hc. run_methods. rewrite Hc, format_registerCom_cmd. tidy.
  unfold exit_outcome.
  destruct (exec_getExecOutput w _ _) as [out|msg]; [|reflexivity].
  destruct (exitCode out =? 0)%Z; reflexivity.
Qed.

End Methods.

(* ===================================================================== *)
(** ** Every run of a method is one of its relation *)
(* ===================================================================== *)

Lemma format_extract_cmd (w : World) (setupPath tmp : string) :
  JsString.format Const.advinstExtractCmdTemplate
    [setupPath; path_join w tmp "advinst"] =
  extract_cmd setupPath (extract_folder w tmp).
Proof. reflexivity. Qed.

Section Soundness.

Variable w : World.
Variable self : AdvinstTool.

Lemma download_sound (h : trace) :
  download_run self (fst (download w self h)) (snd (download w self h)).
Proof.
  run_methods.
  destruct (utils_getVariable w _ _) as [[url|]|msg]; tidy.
  - destruct (JsString.truthy url) eqn:Hurl; tidy.
    + now apply dl_custom.
    + rewrite format_default_url. now apply dl_default.
  - rewrite format_default_url. now apply dl_default.
  - apply dl_variable_throws.
Qed.

Lemma extract_sound (setupPath : string) (h : trace) :
  extract_run w self setupPath (fst (extract w self setupPath h))
    (snd (extract w self setupPath h)).
Proof.
  run_methods. tidy.
  destruct (utils_getRunnerTempDir w _) as [tmp|msg]; tidy;
    [|apply ex_temp_throws].
  rewrite format_extract_cmd.
  destruct (exec_getExecOutput w _ _) as [out|msg] eqn:Hans; tidy.
  - destruct (exitCode out =? 0)%Z eqn:Hcode; tidy.
    + apply ex_cached. simpl. now rewrite Hcode.
    + apply ex_command. simpl. now rewrite Hcode.
  - now apply ex_command.
Qed.

Lemma register_sound (toolPath : string) (h : trace) :
  register_run self toolPath (fst (register w self toolPath h))
    (snd (register w self toolPath h)).
Proof.
  destruct (JsString.truthy (license self)) eqn:Hl.
  - rewrite register_with_license by assumption. now apply reg_command.
  - rewrite register_without_license by assumption. now apply reg_skipped.
Qed.

Lemma registerCom_sound (toolPath : string) (h : trace) :
  registerCom_run self toolPath (fst (registerCom w self toolPath h))
    (snd (registerCom w self toolPath h)).
Proof.
  destruct (enableCom self) eqn:Hc.
  - rewrite registerCom_enabled by assumption. now apply com_command.
  - rewrite registerCom_disabled by assumption. now apply com_skipped.
Qed.

Lemma resolve_sound (found : string) (h : trace) :
  resolve_run w self found (fst (resolve w self found h))
    (snd (resolve w self found h)).
Proof.
  unfold resolve.
  destruct (JsString.truthy found) eqn:Hf; cbn [negb].
  - now apply res_hit.
  - rewrite outcome_bind, events_bind. cbn [core_info emit fst snd app].
    rewrite outcome_bind, events_bind.
    pose proof (download_sound (h ++ [EInfo "Tool not found in cache"])) as Hd.
    destruct (download w self _) as [[setup|msg] es1]; cbn [fst snd] in *.
    + pose proof (extract_sound setup
                    ((h ++ [EInfo "Tool not found in cache"]) ++ es1)) as He.
      cbn [app]. eapply res_extract; eassumption.
    + rewrite app_nil_r. now apply res_download_fails.
Qed.

Lemma finish_sound (toolRoot : string) (h : trace) :
  finish_run w self toolRoot (fst (finish w self toolRoot h))
    (snd (finish w self toolRoot h)).
Proof.
  unfold finish. cbv zeta. rewrite format_exe_path, format_not_found.
  rewrite outcome_bind, events_bind. unfold exists_, ask.
  cbn [fst snd app].
  destruct (utils_exists w h (exe_path toolRoot)) as [[|]|msg]; cbn [negb app].
  - rewrite outcome_bind, events_bind.
    pose proof (register_sound (exe_path toolRoot)
                  (h ++ [EExists (exe_path toolRoot) (Ok true)])) as Hr.
    destruct (register w self _ _) as [[[]|msg] es1]; cbn [fst snd] in *.
    + rewrite outcome_bind, events_bind.
      pose proof (registerCom_sound (exe_path toolRoot)
                    ((h ++ [EExists (exe_path toolRoot) (Ok true)]) ++ es1))
        as Hc.
      destruct (registerCom w self _ _) as [[[]|msg] es2]; cbn [fst snd] in *.
      * now apply fin_done.
      * rewrite app_nil_r. now apply fin_com_fails.
    + rewrite app_nil_r. now apply fin_register_fails.
  - apply fin_missing.
  - apply fin_check_throws.
Qed.

End Soundness.

Section GetPathSoundness.

Variable w : World.
Variable self : AdvinstTool.

Import Const.

(** The three phases, put together, are [getPath]. *)
Lemma getPath_phases (h : trace) :
  getPath w self h =
  (prologue self ;;
   found <- find w advinstCacheToolName
              (normalizeVersionForCache (version self)) advinstCacheToolArch ;;
   toolRoot <- resolve w self found ;;
   finish w self toolRoot) h.
Proof. unfold prologue. rewrite bind_assoc. reflexivity. Qed.

Lemma prologue_run (h : trace) :
  prologue self h = (Ok tt, prologue_events self).
Proof.
  unfold prologue, prologue_events, bind, core_info, emit, ret.
  destruct (negb _); reflexivity.
Qed.

Lemma getPath_sound (h : trace) :
  getPath_run w self (fst (getPath w self h)) (snd (getPath w self h)).
Proof.
  rewrite getPath_phases.
  rewrite outcome_bind, events_bind, prologue_run. cbn [fst snd].
  rewrite outcome_bind, events_bind. unfold find, ask. cbn [fst snd].
  destruct (toolCache_find w _ _ _ _) as [found|msg]; [|apply gp_lookup_throws].
  rewrite outcome_bind, events_bind.
  match goal with
  | |- context [resolve w self found ?h'] =>
      pose proof (resolve_sound w self found h') as Hr;
      destruct (resolve w self found h') as [[toolRoot|msg] es1]
  end; cbn [fst snd app] in *.
  - match goal with
    | |- context [finish w self toolRoot ?h'] =>
        pose proof (finish_sound w self toolRoot h') as Hf
    end.
    eapply gp_resolved; eassumption.
  - rewrite app_nil_r. now apply gp_unresolved.
Qed.

(** One invocation on a fresh log. *)
Lemma run_sound : getPath_run w self (outcome w self) (events w self).
Proof. apply getPath_sound. Qed.

End GetPathSoundness.

(* ===================================================================== *)
(** ** Reasoning on runs *)
(* ===================================================================== *)

(** Case analysis on a run, down to the constructors of the method runs. *)
Ltac invert_run H := inversion H; subst; clear H.

Ltac invert_methods :=
  repeat match goal with
    | H : download_run _ _ _ |- _ => invert_run H
    | H : extract_run _ _ _ _ _ |- _ => invert_run H
    | H : register_run _ _ _ _ |- _ => invert_run H
    | H : registerCom_run _ _ _ _ |- _ => invert_run H
    end.

Ltac invert_runs :=
  repeat match goal with
    | H : getPath_run _ _ _ _ |- _ => invert_run H
    | H : resolve_run _ _ _ _ _ |- _ => invert_run H
    | H : finish_run _ _ _ _ _ |- _ => invert_run H
    end;
  invert_methods.

(** Computing the observations on a log that is known event by event. *)
Ltac observe :=
  unfold never, count, prefix_of in *;
  cbn [In app filter length milestones is_milestone lookup_keys
       write_keys download_urls commands is_call method_eqb is_env_mutation
       is_registration orb hd_error last_event
       export_events hit_plan miss_plan is_ok] in *.

(** The messages before the lookup: one or two, by the normalisation. *)
Ltac split_prologue :=
  unfold prologue_events in *;
  match goal with
  | |- context [negb ?b] => destruct (negb b)
  | _ : context [negb ?b] |- _ => destruct (negb b)
  end.

(** Membership in a log known event by event. *)
Ltac decide_in :=
  repeat match goal with
    | H : _ \/ _ |- _ => destruct H as [H|H]
    | H : False |- _ => contradiction
    | H : @eq event _ _ |- _ => first [discriminate H | inversion H; subst; clear H]
    end.

(** Finding an event in a log known event by event. *)
Ltac pick := solve [repeat first [left; reflexivity | right]].

(** All observations, computed on a log known event by event. *)
Ltac observe_more :=
  unfold never, count, prefix_of, env_mutations in *;
  cbn [In app filter length milestones is_milestone lookup_keys
       write_keys download_urls commands is_call method_eqb is_env_mutation
       is_registration orb last_event export_events hit_plan miss_plan is_ok
       thrown is_info skip_info exists_checks is_acquisition] in *.

(** Membership in a log known event by event, for an event that is a
    variable. *)
Ltac decide_event_in :=
  repeat match goal with
    | H : _ \/ _ |- _ => destruct H as [H|H]
    | H : False |- _ => contradiction
    | H : @eq event _ ?e |- _ => is_var e; subst e
    end.

Section RunFacts.

Variable w : World.
Variable self : AdvinstTool.

(** Reads and writes of the store. *)
Lemma store_keys_run (r : result string) (tr : trace) :
  getPath_run w self r tr ->
  lookup_keys tr = [cache_key self] /\
  (write_keys tr = [] \/ write_keys tr = [cache_key self]).
Proof.
  intros H. invert_runs; split_prologue; observe; auto.
Qed.

(** A run that raises leaves the environment alone; a run that returns
    has exported the two variables and added one entry to the path. *)
Lemma environment_run (r : result string) (tr : trace) :
  getPath_run w self r tr ->
  (is_ok r = false ->
   never is_env_mutation tr /\ never (is_call MExportVariables) tr) /\
  (is_ok r = true -> count is_env_mutation tr = 3) /\
  (forall cmd ans, In (EExec cmd ans) tr ->
     is_ok (exit_outcome ans) = false -> is_ok r = false) /\
  (forall toolPath present, In (EExists toolPath present) tr ->
     present <> Ok true -> is_ok r = false).
Proof.
  intros H. invert_runs; split_prologue; observe;
    (split; [|split; [|split]]); intros; try discriminate; auto; decide_in;
    try match goal with
      | H1 : exit_outcome ?a = _, H2 : is_ok (exit_outcome ?a) = _ |- _ =>
          rewrite H1 in H2; discriminate H2
      end; auto; congruence.
Qed.


(** The path taken on a cache miss, stage by stage. *)
Lemma miss_run (r : result string) (tr : trace) :
  getPath_run w self r tr ->
  cache_miss self tr ->
  count (is_call MDownload) tr = 1 /\
  count (is_call MExtract) tr <= 1 /\
  ((milestones tr = [ECall MDownload []] /\
    (forall url setup, ~ In (EDownloadTool url (Ok setup)) tr) /\
    is_ok r = false) \/
   (exists setup,
      (exists url, In (EDownloadTool url (Ok setup)) tr) /\
      milestones tr = [ECall MDownload []; ECall MExtract [setup]] /\
      (forall dir n v a toolRoot,
         ~ In (ECacheDir dir n v a (Ok toolRoot)) tr) /\
      is_ok r = false) \/
   (exists setup toolRoot present,
      (exists url, In (EDownloadTool url (Ok setup)) tr) /\
      (exists dir,
         In (ECacheDir dir Const.advinstCacheToolName
               (normalizeVersionForCache (version self))
               Const.advinstCacheToolArch (Ok toolRoot)) tr) /\
      prefix_of [ECall MDownload []; ECall MExtract [setup];
                 EExists (exe_path toolRoot) present] (milestones tr) /\
      prefix_of (milestones tr) (miss_plan setup toolRoot present))) /\
  (is_ok r = true ->
   exists setup toolRoot,
     r = Ok (exe_path toolRoot) /\
     milestones tr = miss_plan setup toolRoot (Ok true)).
Proof.
  intros H Hmiss. unfold cache_miss, store_answered in Hmiss.
  invert_runs; split_prologue; observe; decide_in;
    try match goal with
      | Ht : JsString.truthy "" = true |- _ => discriminate Ht
      end.
  all: split; [reflexivity|]; split; [lia|]; split;
    [|intros Hok; try discriminate Hok; do 2 eexists; split; reflexivity].
  all: first
    [ left; split; [reflexivity|]; split;
      [intros ? ? Hin; observe; decide_in | reflexivity]
    | right; left; eexists; split; [eexists; pick|];
      split; [reflexivity|]; split;
      [intros ? ? ? ? ? Hin; observe; decide_in | reflexivity]
    | right; right; do 3 eexists; split; [eexists; pick|];
      split; [eexists; pick|];
      split; eexists; reflexivity ].
Qed.

(** A missing executable ends the run at the existence check. *)
Lemma missing_exe_run (r : result string) (tr : trace) (toolPath : string) :
  getPath_run w self r tr ->
  In (EExists toolPath (Ok false)) tr ->
  r = Throw (not_found_message toolPath) /\
  last_event tr = Some (EExists toolPath (Ok false)) /\
  never is_registration tr /\
  never is_env_mutation tr /\
  (count (is_call MDownload) tr <= 1 /\ count (is_call MExtract) tr <= 1 /\
   length (download_urls tr) <= 1 /\ length (write_keys tr) <= 1) /\
  (exists toolRoot,
     toolPath = exe_path toolRoot /\
     (cache_hit self toolRoot tr \/
      exists dir,
        In (ECacheDir dir Const.advinstCacheToolName
              (normalizeVersionForCache (version self))
              Const.advinstCacheToolArch (Ok toolRoot)) tr)).
Proof.
  intros H Hin.
  invert_runs; split_prologue; observe; decide_in.
  all: repeat (split; [first [reflexivity | lia]|]).
  all: eexists; split; [reflexivity|].
  all: first
    [ left; split; [unfold store_answered; observe; pick | assumption]
    | right; eexists; pick ].
Qed.

(** The external commands of a run that returns. *)
Lemma commands_run (tr : trace) (toolPath : string) :
  getPath_run w self (Ok toolPath) tr ->
  exists acquisition,
    length acquisition <= 1 /\
    commands tr =
    (acquisition
     ++ (if JsString.truthy (license self)
         then [register_cmd self toolPath] else [])
     ++ (if enableCom self then [registerCom_cmd toolPath] else []))%list.
Proof.
  intros H.
  invert_runs; split_prologue; observe;
    repeat match goal with
      | Hl : JsString.truthy (license self) = _ |- _ => rewrite Hl
      | Hc : enableCom self = _ |- _ => rewrite Hc
      end.
  all: first
    [ exists []; split; [simpl; lia | reflexivity]
    | eexists [_]; split; [simpl; lia | reflexivity] ].
Qed.


End RunFacts.

Section StageFacts.

Variable w : World.
Variable self : AdvinstTool.


(** The existence check is made as soon as the root is known, at most
    once, and nothing is registered or exported without its positive
    answer. *)
Lemma check_made_run (r : result string) (tr : trace) :
  getPath_run w self r tr ->
  (forall toolRoot,
     cache_hit self toolRoot tr ->
     exists present, In (EExists (exe_path toolRoot) present) tr) /\
  (forall dir toolRoot,
     In (ECacheDir dir Const.advinstCacheToolName
           (normalizeVersionForCache (version self))
           Const.advinstCacheToolArch (Ok toolRoot)) tr ->
     exists present, In (EExists (exe_path toolRoot) present) tr) /\
  (forall e,
     In e tr -> is_registration e || is_env_mutation e = true ->
     exists toolRoot,
       In (EExists (exe_path toolRoot) (Ok true)) tr /\
       (cache_hit self toolRoot tr \/
        exists dir,
          In (ECacheDir dir Const.advinstCacheToolName
                (normalizeVersionForCache (version self))
                Const.advinstCacheToolArch (Ok toolRoot)) tr)) /\
  length (exists_checks tr) <= 1.
Proof.
  intros H. repeat apply conj.
  - intros toolRoot [Hfound Htruthy]. unfold store_answered in Hfound.
    invert_runs; split_prologue; observe_more; decide_in;
      try match goal with
        | Hf : JsString.truthy toolRoot = false |- _ =>
            rewrite Htruthy in Hf; discriminate Hf
        end;
      eexists; pick.
  - intros dir toolRoot Hin.
    invert_runs; split_prologue; observe_more; decide_in; eexists; pick.
  - intros e Hin He.
    invert_runs; split_prologue; observe_more; decide_event_in;
      try discriminate He;
      eexists; (split; [pick|]);
      first
        [ left; split; [unfold store_answered; observe; pick | assumption]
        | right; eexists; pick ].
  - invert_runs; split_prologue; observe_more; lia.
Qed.

End StageFacts.

Section CheckAnswer.

Variable w : World.
Variable self : AdvinstTool.

(** Neither the messages before the lookup nor the resolution of the root
    checks a path. *)
Lemma exists_checks_nil (tr : trace) (p : string) (ans : result bool) :
  exists_checks tr = [] -> ~ In (EExists p ans) tr.
Proof.
  induction tr as [|e tr IH]; intros Hnil Hin; [contradiction|].
  destruct Hin as [He|Hin].
  - subst e. discriminate Hnil.
  - destruct e; simpl in Hnil; try discriminate Hnil; now apply IH.
Qed.

Lemma resolve_checks_nothing (found : string) (r : result string) (es : trace) :
  resolve_run w self found r es -> exists_checks es = [].
Proof. intros H. invert_runs; reflexivity. Qed.

Lemma finish_checks_once (toolRoot : string) (r : result string) (es : trace) :
  finish_run w self toolRoot r es -> exists_checks es = [exe_path toolRoot].
Proof. intros H. invert_runs; reflexivity. Qed.

(** The check [finish] logs is the answer of the world at that moment. *)
Lemma finish_check_answer (toolRoot : string) (h : trace) (p : string)
    (ans : result bool) :
  In (EExists p ans) (snd (finish w self toolRoot h)) ->
  p = exe_path toolRoot /\ ans = utils_exists w h (exe_path toolRoot).
Proof.
  pose proof (finish_checks_once toolRoot _ _ (finish_sound w self toolRoot h))
    as Honce.
  revert Honce. unfold finish. cbv zeta.
  rewrite format_exe_path, format_not_found, events_bind.
  unfold exists_, ask. cbn [fst snd app exists_checks].
  intros Honce [Hhead|Hrest].
  - inversion Hhead. split; reflexivity.
  - exfalso. inversion Honce as [Hnil].
    exact (exists_checks_nil _ p ans Hnil Hrest).
Qed.

(** Every existence check in the log of [getPath] carries the answer the
    world gave when it was asked. *)
Lemma check_answer_faithful (p : string) (ans : result bool) :
  In (EExists p ans) (events w self) ->
  exists h, ans = utils_exists w h p.
Proof.
  unfold events. rewrite getPath_phases.
  rewrite events_bind, prologue_run. cbn [fst snd].
  rewrite events_bind. unfold find, ask. cbn [fst snd].
  intros Hin. apply in_app_or in Hin. destruct Hin as [Hin|Hin].
  - exfalso. revert Hin. apply exists_checks_nil.
    unfold prologue_events. destruct (negb _); reflexivity.
  - cbn [app] in Hin. destruct Hin as [Hin|Hin]; [discriminate Hin|].
    destruct (toolCache_find w _ _ _ _) as [found|msg]; [|contradiction].
    rewrite events_bind in Hin. apply in_app_or in Hin.
    destruct Hin as [Hin|Hin].
    + exfalso. revert Hin. apply exists_checks_nil.
      eapply resolve_checks_nothing. apply resolve_sound.
    + destruct (fst (resolve w self found _)) as [toolRoot|msg];
        [|contradiction].
      apply finish_check_answer in Hin. destruct Hin as [Hp Hans].
      subst p. eexists. exact Hans.
Qed.

End CheckAnswer.

(* ===================================================================== *)
(** ** What [download] asks for *)
(* ===================================================================== *)


Lemma extract_key (w : World) (self : AdvinstTool) (setupPath : string)
    (r : result string) (es : trace) :
  extract_run w self setupPath r es ->
  write_keys es = [] \/ write_keys es = [cache_key self].
Proof. intros H. invert_methods; observe; auto. Qed.

(* ===================================================================== *)
(** ** The claims about the pipeline *)
(* ===================================================================== *)

(** The two end-to-end scenarios of the specification. *)
Example scenario_version_2 :
  outcome world_miss tool_2 = Ok (exe_path root_200) /\
  lookup_keys (events world_miss tool_2) = [("advinst", "2.0.0", "x86")] /\
  download_urls (events world_miss tool_2) =
    ["https://www.advancedinstaller.com/downloads/2/advinst.msi"] /\
  write_keys (events world_miss tool_2) = [("advinst", "2.0.0", "x86")] /\
  milestones (events world_miss tool_2) =
    miss_plan "D:\a\_temp\setup" root_200 (Ok true) /\
  count is_env_mutation (events world_miss tool_2) = 3.
Proof. vm_compute. repeat split. Qed.

Example scenario_version_351 :
  outcome world_hit tool_351 = Ok (exe_path root_351) /\
  lookup_keys (events world_hit tool_351) = [("advinst", "3.5.1", "x86")] /\
  download_urls (events world_hit tool_351) = [] /\
  commands (events world_hit tool_351) =
    ["C:\tc\advinst\3.5.1\x86\bin\x86\advancedinstaller.com /RegisterCI KEY"].
Proof. vm_compute. repeat split. Qed.

(** C1: the store is read and written with one and the same key.  Every
    run of [getPath] makes exactly one lookup, with the version normalised
    by [normalizeVersionForCache]; it makes at most one write, with the same
    normalised version (also when [extract] is called on its own); and a
    second request whose version normalises to the same string uses the
    same key for its lookup and its write. *)
Theorem cache_key_consistent (w w' : World) (self other : AdvinstTool) :
  lookup_keys (events w self) = [cache_key self] /\
  (write_keys (events w self) = [] \/
   write_keys (events w self) = [cache_key self]) /\
  (forall setupPath h,
     write_keys (snd (extract w self setupPath h)) = [] \/
     write_keys (snd (extract w self setupPath h)) = [cache_key self]) /\
  (normalizeVersionForCache (version other) =
   normalizeVersionForCache (version self) ->
   lookup_keys (events w' other) = [cache_key self] /\
   (write_keys (events w' other) = [] \/
    write_keys (events w' other) = [cache_key self])).
Proof.
  split; [|split; [|split]].
  - apply (store_keys_run w self _ _ (run_sound w self)).
  - apply (store_keys_run w self _ _ (run_sound w self)).
  - intros setupPath h. apply (extract_key w self setupPath _ _ (extract_sound w self setupPath h)).
  - intros Hsame.
    assert (Hkey : cache_key other = cache_key self)
      by (unfold cache_key; now rewrite Hsame).
    rewrite <- Hkey. apply (store_keys_run w' other _ _ (run_sound w' other)).
Qed.

Lemma cache_key_consistent_witness :
  normalizeVersionForCache "2.1.0" = normalizeVersionForCache "2.1" /\
  lookup_keys (events world_hit tool_210) = [("advinst", "2.1.0", "x86")] /\
  write_keys (events world_miss tool_21) = [("advinst", "2.1.0", "x86")].
Proof.
  split; [reflexivity|]. split.
  - apply (proj2 (proj2 (proj2
             (cache_key_consistent world_miss world_hit tool_21 tool_210)))).
    reflexivity.
  - destruct (proj1 (proj2
               (cache_key_consistent world_miss world_hit tool_21 tool_210)))
      as [Hnone|Hone]; [discriminate Hnone | exact Hone].
Defined.




(** C3, as stated, fails: the store answers nothing and the download
    raises, so [extract] is not invoked at all. *)
Lemma cache_miss_as_specified_fails :
  ~ cache_miss_as_specified world_miss_no_network tool_2.
Proof.
  intros H. destruct H as (_ & Hextract & _).
  - vm_compute. pick.
  - vm_compute in Hextract. discriminate Hextract.
Qed.

(** C3 (amended): on a cache miss [getPath] invokes [download] exactly
    once and [extract] at most once, and the run stops at the first stage
    that raises: either the download did not succeed and nothing else was
    invoked; or it succeeded and [extract] was invoked on its result, once,
    and did not reach the store; or the store assigned a root, and then the
    existence of the executable under that root was checked right after
    [extract] and before any registration call, the later milestones
    following in the order register, registerCom, exportVariables.  When
    [getPath] returns, all of them happened, once each. *)
Theorem cache_miss_path (w : World) (self : AdvinstTool) :
  cache_miss self (events w self) ->
  count (is_call MDownload) (events w self) = 1 /\
  count (is_call MExtract) (events w self) <= 1 /\
  ((milestones (events w self) = [ECall MDownload []] /\
    (forall url setup, ~ In (EDownloadTool url (Ok setup)) (events w self)) /\
    is_ok (outcome w self) = false) \/
   (exists setup,
      (exists url, In (EDownloadTool url (Ok setup)) (events w self)) /\
      milestones (events w self) = [ECall MDownload []; ECall MExtract [setup]] /\
      (forall dir n v a toolRoot,
         ~ In (ECacheDir dir n v a (Ok toolRoot)) (events w self)) /\
      is_ok (outcome w self) = false) \/
   (exists setup toolRoot present,
      (exists url, In (EDownloadTool url (Ok setup)) (events w self)) /\
      (exists dir,
         In (ECacheDir dir Const.advinstCacheToolName
               (normalizeVersionForCache (version self))
               Const.advinstCacheToolArch (Ok toolRoot)) (events w self)) /\
      prefix_of [ECall MDownload []; ECall MExtract [setup];
                 EExists (exe_path toolRoot) present]
        (milestones (events w self)) /\
      prefix_of (milestones (events w self))
        (miss_plan setup toolRoot present))) /\
  (is_ok (outcome w self) = true ->
   exists setup toolRoot,
     outcome w self = Ok (exe_path toolRoot) /\
     milestones (events w self) = miss_plan setup toolRoot (Ok true)).
Proof. intros Hmiss. exact (miss_run w self _ _ (run_sound w self) Hmiss). Qed.

Lemma cache_miss_path_witness :
  cache_miss tool_2 (events world_miss tool_2) /\
  is_ok (outcome world_miss tool_2) = true /\
  count (is_call MDownload) (events world_miss tool_2) = 1 /\
  exists setup toolRoot,
    outcome world_miss tool_2 = Ok (exe_path toolRoot) /\
    milestones (events world_miss tool_2) = miss_plan setup toolRoot (Ok true).
Proof.
  assert (Hmiss : cache_miss tool_2 (events world_miss tool_2))
    by (vm_compute; pick).
  pose proof (cache_miss_path world_miss tool_2 Hmiss) as (Hdl & _ & _ & Hok).
  split; [exact Hmiss|]. split; [reflexivity|]. split; [exact Hdl|].
  apply Hok. reflexivity.
Defined.

(** The executable is missing after a fresh extraction as well. *)
Example missing_after_extraction :
  outcome world_miss_no_exe tool_2 = Throw (not_found_message (exe_path root_200)) /\
  milestones (events world_miss_no_exe tool_2) =
    [ECall MDownload []; ECall MExtract ["D:\a\_temp\setup"];
     EExists (exe_path root_200) (Ok false)].
Proof. vm_compute. split; reflexivity. Qed.

(** C7: the existence of the expected executable, the fixed relative
    path under the resolved root, is checked in every run that resolves a
    root, whether the store answered it on the lookup or assigned it after
    a fresh extraction, and it is checked at most once; no registration
    call and no change of the environment happens in a run without a
    positive answer to that check.  When the check answers that the
    executable does not exist, and so whenever the world holds no such
    file, [getPath] raises the error naming that path and the check is the
    last event of the run: no registration call is made, the environment
    is left alone, and [download] and [extract] have been invoked at most
    once each. *)
Theorem missing_executable_halts (w : World) (self : AdvinstTool) :
  (forall toolRoot,
     cache_hit self toolRoot (events w self) ->
     exists present, In (EExists (exe_path toolRoot) present) (events w self)) /\
  (forall dir toolRoot,
     In (ECacheDir dir Const.advinstCacheToolName
           (normalizeVersionForCache (version self))
           Const.advinstCacheToolArch (Ok toolRoot)) (events w self) ->
     exists present, In (EExists (exe_path toolRoot) present) (events w self)) /\
  (forall e,
     In e (events w self) -> is_registration e || is_env_mutation e = true ->
     exists toolRoot,
       In (EExists (exe_path toolRoot) (Ok true)) (events w self) /\
       (cache_hit self toolRoot (events w self) \/
        exists dir,
          In (ECacheDir dir Const.advinstCacheToolName
                (normalizeVersionForCache (version self))
                Const.advinstCacheToolArch (Ok toolRoot)) (events w self))) /\
  length (exists_checks (events w self)) <= 1 /\
  (forall toolPath,
     In (EExists toolPath (Ok false)) (events w self) ->
     outcome w self = Throw (not_found_message toolPath) /\
     last_event (events w self) = Some (EExists toolPath (Ok false)) /\
     never is_registration (events w self) /\
     never is_env_mutation (events w self) /\
     (count (is_call MDownload) (events w self) <= 1 /\
      count (is_call MExtract) (events w self) <= 1 /\
      length (download_urls (events w self)) <= 1 /\
      length (write_keys (events w self)) <= 1) /\
     (exists toolRoot,
        toolPath = exe_path toolRoot /\
        (cache_hit self toolRoot (events w self) \/
         exists dir,
           In (ECacheDir dir Const.advinstCacheToolName
                 (normalizeVersionForCache (version self))
                 Const.advinstCacheToolArch (Ok toolRoot)) (events w self)))) /\
  (forall toolRoot,
     (forall h, utils_exists w h (exe_path toolRoot) = Ok false) ->
     (cache_hit self toolRoot (events w self) \/
      exists dir,
        In (ECacheDir dir Const.advinstCacheToolName
              (normalizeVersionForCache (version self))
              Const.advinstCacheToolArch (Ok toolRoot)) (events w self)) ->
     outcome w self = Throw (not_found_message (exe_path toolRoot)) /\
     last_event (events w self) =
       Some (EExists (exe_path toolRoot) (Ok false)) /\
     never is_registration (events w self) /\
     never is_env_mutation (events w self) /\
     (count (is_call MDownload) (events w self) <= 1 /\
      count (is_call MExtract) (events w self) <= 1 /\
      length (download_urls (events w self)) <= 1 /\
      length (write_keys (events w self)) <= 1)).
Proof.
  destruct (check_made_run w self _ _ (run_sound w self))
    as (Hhit & Hmiss & Honly & Honce).
  assert (Hhalt : forall toolPath,
            In (EExists toolPath (Ok false)) (events w self) ->
            _) by
    (intros toolPath Hin;
     exact (missing_exe_run w self _ _ toolPath (run_sound w self) Hin)).
  repeat (split; [assumption|]).
  intros toolRoot Habsent Hresolved.
  assert (Hcheck : exists present,
            In (EExists (exe_path toolRoot) present) (events w self)).
  { destruct Hresolved as [Hr|[dir Hr]]; [exact (Hhit _ Hr) | exact (Hmiss _ _ Hr)]. }
  destruct Hcheck as [present Hin].
  destruct (check_answer_faithful w self _ _ Hin) as [h Hans].
  rewrite Habsent in Hans. subst present.
  destruct (Hhalt _ Hin) as (Hout & Hlast & Hreg & Henv & Hcounts & _).
  repeat (split; [assumption|]). assumption.
Qed.

Lemma missing_executable_halts_witness :
  (In (EExists (exe_path root_351) (Ok false)) (events world_hit_no_exe tool_351) /\
   outcome world_hit_no_exe tool_351 =
     Throw "Expected to find C:\tc\advinst\3.5.1\x86\bin\x86\advancedinstaller.com, but it was not found." /\
   never is_registration (events world_hit_no_exe tool_351)) /\
  (outcome world_miss_no_exe tool_2 =
     Throw "Expected to find C:\tc\advinst\2.0.0\x86\bin\x86\advancedinstaller.com, but it was not found." /\
   last_event (events world_miss_no_exe tool_2) =
     Some (EExists (exe_path root_200) (Ok false)) /\
   never is_registration (events world_miss_no_exe tool_2) /\
   never is_env_mutation (events world_miss_no_exe tool_2)) /\
  (exists present,
     In (EExists (exe_path root_200) present) (events world_miss tool_2)) /\
  (exists toolRoot,
     In (EExists (exe_path toolRoot) (Ok true)) (events world_miss tool_2)).
Proof.
  split; [|split; [|split]].
  - assert (Hin : In (EExists (exe_path root_351) (Ok false))
                    (events world_hit_no_exe tool_351))
      by (vm_compute; pick).
    destruct (proj1 (proj2 (proj2 (proj2 (proj2
               (missing_executable_halts world_hit_no_exe tool_351)))))
               (exe_path root_351) Hin) as (Hout & _ & Hreg & _).
    split; [exact Hin|]. split; [exact Hout | exact Hreg].
  - destruct (proj2 (proj2 (proj2 (proj2 (proj2
               (missing_executable_halts world_miss_no_exe tool_2)))))
               root_200) as (Hout & Hlast & Hreg & Henv & _).
    + intros h. reflexivity.
    + right. exists "D:\a\_temp\advinst". vm_compute. pick.
    + split; [exact Hout|]. split; [exact Hlast|].
      split; [exact Hreg | exact Henv].
  - apply (proj1 (proj2 (missing_executable_halts world_miss tool_2))
             "D:\a\_temp\advinst" root_200).
    vm_compute. pick.
  - destruct (proj1 (proj2 (proj2 (missing_executable_halts world_miss tool_2)))
               (ECall MRegister [exe_path root_200])) as (toolRoot & Hin & _).
    + vm_compute. pick.
    + reflexivity.
    + exists toolRoot. exact Hin.
Defined.

(** C8: [register] runs the registration command only with a license:
    without one it runs no command, with one it runs exactly one command,
    the executable with [/RegisterCI] and that license.  [registerCom] runs
    no command when [enableCom] is false and exactly one, the executable
    with [/REGSERVER], when it is true.  In a run of [getPath] that
    returns, the commands run after the acquisition are exactly these. *)
Theorem conditional_registration (w : World) (self : AdvinstTool) :
  (forall toolPath h,
     JsString.truthy (license self) = false ->
     commands (snd (register w self toolPath h)) = []) /\
  (forall toolPath h,
     JsString.truthy (license self) = true ->
     commands (snd (register w self toolPath h)) =
       [toolPath ++ " /RegisterCI " ++ license self]) /\
  (forall toolPath h,
     enableCom self = false ->
     commands (snd (registerCom w self toolPath h)) = []) /\
  (forall toolPath h,
     enableCom self = true ->
     commands (snd (registerCom w self toolPath h)) =
       [toolPath ++ " /REGSERVER"]) /\
  (forall toolPath,
     outcome w self = Ok toolPath ->
     exists acquisition,
       length acquisition <= 1 /\
       commands (events w self) =
       (acquisition
        ++ (if JsString.truthy (license self)
            then [register_cmd self toolPath] else [])
        ++ (if enableCom self then [registerCom_cmd toolPath] else []))%list).
Proof.
  repeat apply conj.
  - intros toolPath h Hl. now rewrite register_without_license.
  - intros toolPath h Hl. now rewrite register_with_license.
  - intros toolPath h Hc. now rewrite registerCom_disabled.
  - intros toolPath h Hc. now rewrite registerCom_enabled.
  - intros toolPath Hout. apply (commands_run w self).
    rewrite <- Hout. apply run_sound.
Qed.

Lemma conditional_registration_witness :
  (JsString.truthy (license tool_2) = false /\
   commands (snd (register world_hit tool_2 "advinst.com" [])) = []) /\
  (JsString.truthy (license tool_com) = true /\
   commands (snd (register world_hit tool_com "advinst.com" [])) =
     ["advinst.com /RegisterCI KEY"]) /\
  (enableCom tool_2 = false /\
   commands (snd (registerCom world_hit tool_2 "advinst.com" [])) = []) /\
  (enableCom tool_com = true /\
   commands (snd (registerCom world_hit tool_com "advinst.com" [])) =
     ["advinst.com /REGSERVER"]) /\
  (outcome world_hit tool_com = Ok (exe_path root_351) /\
   exists acquisition,
     length acquisition <= 1 /\
     commands (events world_hit tool_com) =
     (acquisition
      ++ (if JsString.truthy (license tool_com)
          then [register_cmd tool_com (exe_path root_351)] else [])
      ++ (if enableCom tool_com
          then [registerCom_cmd (exe_path root_351)] else []))%list).
Proof.
  pose proof (conditional_registration world_hit tool_2)
    as (Hno & _ & Hoff & _).
  pose proof (conditional_registration world_hit tool_com)
    as (_ & Hyes & _ & Hon & Hrun).
  split; [split; [reflexivity | apply Hno; reflexivity]|].
  split; [split; [reflexivity | apply Hyes; reflexivity]|].
  split; [split; [reflexivity | apply Hoff; reflexivity]|].
  split; [split; [reflexivity | apply Hon; reflexivity]|].
  split; [reflexivity | apply Hrun; reflexivity].
Defined.



(** C10: a run of [getPath] that raises has exported no variable, has not
    added to the search path and has not invoked [exportVariables]; a run
    that returns has made exactly the three mutations.  The failures after
    the resolution of the root are among the raising runs: an existence
    check that does not answer true, and any external command that throws
    or exits with a code other than 0, make [getPath] raise. *)
Theorem failure_leaves_environment (w : World) (self : AdvinstTool) :
  (is_ok (outcome w self) = false ->
   never is_env_mutation (events w self) /\
   never (is_call MExportVariables) (events w self)) /\
  (is_ok (outcome w self) = true -> count is_env_mutation (events w self) = 3) /\
  (forall cmd ans, In (EExec cmd ans) (events w self) ->
     is_ok (exit_outcome ans) = false -> is_ok (outcome w self) = false) /\
  (forall toolPath present, In (EExists toolPath present) (events w self) ->
     present <> Ok true -> is_ok (outcome w self) = false).
Proof. exact (environment_run w self _ _ (run_sound w self)). Qed.

Lemma failure_leaves_environment_witness :
  (is_ok (outcome world_hit_cmd_fails tool_351) = false /\
   never is_env_mutation (events world_hit_cmd_fails tool_351) /\
   never (is_call MExportVariables) (events world_hit_cmd_fails tool_351)) /\
  (is_ok (outcome world_hit tool_351) = true /\
   count is_env_mutation (events world_hit tool_351) = 3) /\
  (In (EExec (register_cmd tool_351 (exe_path root_351))
         (Ok (failure "license rejected")))
      (events world_hit_cmd_fails tool_351) /\
   is_ok (outcome world_hit_cmd_fails tool_351) = false) /\
  (In (EExists (exe_path root_351) (Ok false)) (events world_hit_no_exe tool_351) /\
   is_ok (outcome world_hit_no_exe tool_351) = false).
Proof.
  split; [|split; [|split]].
  - split; [reflexivity|].
    apply (proj1 (failure_leaves_environment world_hit_cmd_fails tool_351)).
    reflexivity.
  - split; [reflexivity|].
    apply (proj1 (proj2 (failure_leaves_environment world_hit tool_351))).
    reflexivity.
  - assert (Hin : In (EExec (register_cmd tool_351 (exe_path root_351))
                        (Ok (failure "license rejected")))
                    (events world_hit_cmd_fails tool_351))
      by (vm_compute; pick).
    split; [exact Hin|].
    apply (proj1 (proj2 (proj2
             (failure_leaves_environment world_hit_cmd_fails tool_351)))
             _ _ Hin).
    reflexivity.
  - assert (Hin : In (EExists (exe_path root_351) (Ok false))
                    (events world_hit_no_exe tool_351))
      by (vm_compute; pick).
    split; [exact Hin|].
    apply (proj2 (proj2 (proj2
             (failure_leaves_environment world_hit_no_exe tool_351)))
             _ _ Hin).
    discriminate.
Defined.

(* ===================================================================== *)
(** ** More about [normalizeVersionForCache] *)
(* ===================================================================== *)

Section SplitMore.

Variable sep : ascii.

(** Splitting a string that continues with a separator. *)
Lemma split_app_sep (a b : string) :
  JsString.split sep (a ++ String sep b) =
  (JsString.split sep a ++ JsString.split sep b)%list.
Proof.
  induction a as [|c a IH].
  - simpl. now rewrite Ascii.eqb_refl.
  - change (String c a ++ String sep b) with (String c (a ++ String sep b)).
    simpl. destruct (Ascii.eqb c sep).
    + now rewrite IH.
    + rewrite IH. pose proof (split_nonempty sep a) as Hne.
      destruct (JsString.split sep a); [congruence | reflexivity].
Qed.

(** Two strings with the same components are the same string. *)
Lemma split_injective (a b : string) :
  JsString.split sep a = JsString.split sep b -> a = b.
Proof.
  revert b. induction a as [|c a IH]; intros [|d b] H.
  - reflexivity.
  - simpl in H. pose proof (split_nonempty sep b) as Hne.
    destruct (Ascii.eqb d sep).
    + inversion H as [Hb]. symmetry in Hb. contradiction.
    + destruct (JsString.split sep b); [congruence | discriminate].
  - simpl in H. pose proof (split_nonempty sep a) as Hne.
    destruct (Ascii.eqb c sep).
    + inversion H as [Ha]. contradiction.
    + destruct (JsString.split sep a); [congruence | discriminate].
  - simpl in H.
    pose proof (split_nonempty sep a) as Ha.
    pose proof (split_nonempty sep b) as Hb.
    destruct (Ascii.eqb c sep) eqn:Hc, (Ascii.eqb d sep) eqn:Hd.
    + apply Ascii.eqb_eq in Hc, Hd. subst c d.
      inversion H as [Hab]. f_equal. now apply IH.
    + destruct (JsString.split sep b); [congruence | discriminate].
    + destruct (JsString.split sep a); [congruence | discriminate].
    + destruct (JsString.split sep a) as [|p ps] eqn:Ea; [congruence|].
      destruct (JsString.split sep b) as [|q qs] eqn:Eb; [congruence|].
      inversion H; subst. f_equal. apply IH. now rewrite Eb.
Qed.

End SplitMore.

Lemma split_normalized (v : string) :
  JsString.split "." (normalizeVersionForCache v) =
  pad_components (JsString.split "." v).
Proof.
  unfold pad_components.
  pose proof (split_length_pos "." v) as Hpos.
  destruct (le_lt_dec 3 (length (JsString.split "." v))) as [H3|H3].
  - rewrite normalize_ge3 by assumption.
    replace (3 - length (JsString.split "." v)) with 0 by lia.
    simpl. now rewrite app_nil_r.
  - destruct (Nat.eq_dec (length (JsString.split "." v)) 2) as [H2|H2].
    + rewrite normalize_eq2 by assumption. rewrite H2.
      change (v ++ ".0") with (v ++ String "." "0").
      now rewrite split_app_sep.
    + assert (H1 : length (JsString.split "." v) = 1) by lia.
      rewrite normalize_eq1 by assumption. rewrite H1.
      change (v ++ ".0.0") with (v ++ String "." "0.0").
      now rewrite split_app_sep.
Qed.

(** X1: the components of the normalised version are the components of the
    input, unchanged and in order, followed by as many ["0"] components as
    it takes to reach three; so the result has three components, or as many
    as the input when that has more. *)
Theorem normalize_pads_components (v : string) :
  JsString.split "." (normalizeVersionForCache v) =
    (JsString.split "." v
     ++ repeat "0" (3 - length (JsString.split "." v)))%list /\
  length (JsString.split "." (normalizeVersionForCache v)) =
    Nat.max 3 (length (JsString.split "." v)).
Proof.
  split; [apply split_normalized|].
  rewrite split_normalized. unfold pad_components.
  rewrite length_app, repeat_length. lia.
Qed.

(** X2: two versions get the same normalised version, hence the same
    cache key, exactly when their components agree once both lists are
    padded with ["0"] up to three components. *)
Theorem shared_key_iff_padded_components (v1 v2 : string) :
  normalizeVersionForCache v1 = normalizeVersionForCache v2 <->
  pad_components (JsString.split "." v1) =
  pad_components (JsString.split "." v2).
Proof.
  rewrite <- !split_normalized. split.
  - intros H. now rewrite H.
  - apply split_injective.
Qed.

Lemma shared_key_iff_padded_components_witness :
  pad_components (JsString.split "." "2") =
  pad_components (JsString.split "." "2.0") /\
  normalizeVersionForCache "2.1" <> normalizeVersionForCache "2.10".
Proof.
  split.
  - apply (proj1 (shared_key_iff_padded_components "2" "2.0")). reflexivity.
  - intros H.
    apply (proj1 (shared_key_iff_padded_components "2.1" "2.10")) in H.
    vm_compute in H. discriminate H.
Defined.

Lemma normalize_fixpoint_iff (v : string) :
  normalizeVersionForCache v = v <-> 3 <= length (JsString.split "." v).
Proof.
  split; [|apply normalize_ge3].
  intros H. pose proof (split_normalized v) as Hs. rewrite H in Hs.
  apply (f_equal (@length string)) in Hs. unfold pad_components in Hs.
  rewrite length_app, repeat_length in Hs. lia.
Qed.

(* ===================================================================== *)
(** ** More about the pipeline *)
(* ===================================================================== *)

Lemma format_custom_url_message (url : string) :
  JsString.format "Using custom URL for advinst tool: %s" [url] =
  "Using custom URL for advinst tool: " ++ url ++ "".
Proof. reflexivity. Qed.

Section MoreRunFacts.

Variable w : World.
Variable self : AdvinstTool.

(** The notice is one of the messages before the lookup, or it is not
    logged at all. *)
Lemma notice_run (r : result string) (tr : trace) :
  getPath_run w self r tr ->
  In (EInfo (normalization_notice self)) tr <->
  normalizeVersionForCache (version self) <> version self.
Proof.
  intros H.
  destruct (normalizeVersionForCache (version self) =? version self) eqn:E.
  - apply String.eqb_eq in E. split; [|congruence]. intros Hin. exfalso.
    invert_runs; unfold prologue_events in Hin;
      rewrite ?format_custom_url_message in Hin;
      rewrite E, String.eqb_refl in Hin;
      unfold normalization_notice, export_events in Hin;
      cbn [In app negb append] in Hin;
      decide_in.
  - apply String.eqb_neq in E. split; [intros _; exact E|]. intros _.
    apply String.eqb_neq in E.
    invert_runs; unfold prologue_events; rewrite E; cbn [In app negb];
      right; left; reflexivity.
Qed.

(** A library call that throws, or a command that exits with a code other
    than 0, is the last event of the run. *)
Lemma failure_run (r : result string) (tr : trace) :
  getPath_run w self r tr ->
  (forall e msg, In e tr -> thrown e = Some msg ->
     r = Throw msg /\ last_event tr = Some e) /\
  (forall cmd out, In (EExec cmd (Ok out)) tr -> exitCode out <> 0%Z ->
     r = Throw (stdout out) /\ last_event tr = Some (EExec cmd (Ok out))).
Proof.
  intros H. split.
  - intros e msg Hin Hthrown.
    invert_runs; split_prologue; observe_more; decide_event_in;
      observe_more; try discriminate Hthrown;
      repeat match goal with
        | Ha : exit_outcome ?a = _ |- _ =>
            destruct a; cbn [exit_outcome thrown] in *
        end;
      try discriminate; try congruence;
      repeat match goal with
        | Hm : Some _ = Some _ |- _ => inversion Hm; subst; clear Hm
        | Hm : Throw _ = Throw _ |- _ => inversion Hm; subst; clear Hm
        end;
      split; reflexivity.
  - intros cmd out Hin Hcode. apply Z.eqb_neq in Hcode.
    invert_runs; split_prologue; observe_more; decide_in;
      cbn [exit_outcome] in *;
      repeat match goal with
        | Ha : context [(exitCode out =? 0)%Z] |- _ => rewrite Hcode in Ha
        end;
      try discriminate;
      repeat match goal with
        | Hm : Throw _ = Throw _ |- _ => inversion Hm; subst; clear Hm
        end;
      split; reflexivity.
Qed.

(** What a run that returns has done to the environment. *)
Lemma returned_run (tr : trace) (toolPath : string) :
  getPath_run w self (Ok toolPath) tr ->
  exists toolRoot,
    toolPath = exe_path toolRoot /\
    (cache_hit self toolRoot tr \/
     exists dir,
       In (ECacheDir dir Const.advinstCacheToolName
             (normalizeVersionForCache (version self))
             Const.advinstCacheToolArch (Ok toolRoot)) tr) /\
    In (EExists toolPath (Ok true)) tr /\
    env_mutations tr =
      [EExportVariable "AdvancedInstallerRoot" toolRoot;
       EExportVariable "AdvancedInstallerMSBuildTargets"
         (toolRoot ++ "\ProgramFilesFolder\MSBuild\Caphyon\Advanced Installer");
       EAddPath (path_dirname w toolPath)] /\
    last_event tr = Some (EAddPath (path_dirname w toolPath)).
Proof.
  intros H.
  invert_runs; split_prologue; observe_more.
  all: eexists; split; [reflexivity|]; split;
    [first
       [ left; split; [unfold store_answered; observe; pick | assumption]
       | right; eexists; pick ]
    |]; split; [pick|]; split; reflexivity.
Qed.

(** Nothing is done twice. *)
Lemma bounds_run (r : result string) (tr : trace) :
  getPath_run w self r tr ->
  length (lookup_keys tr) = 1 /\
  length (download_urls tr) <= 1 /\
  length (write_keys tr) <= 1 /\
  length (exists_checks tr) <= 1 /\
  length (commands tr) <= 3 /\
  (count (is_call MDownload) tr <= 1 /\ count (is_call MExtract) tr <= 1 /\
   count (is_call MRegister) tr <= 1 /\ count (is_call MRegisterCom) tr <= 1 /\
   count (is_call MExportVariables) tr <= 1) /\
  count is_env_mutation tr <= 3.
Proof.
  intros H. invert_runs; split_prologue; observe_more;
    repeat split; lia.
Qed.

(** From the downloaded file to the store. *)
Lemma acquisition_run (r : result string) (tr : trace) (url setup : string) :
  getPath_run w self r tr ->
  In (EDownloadTool url (Ok setup)) tr ->
  In (ECall MExtract [setup]) tr /\
  (forall tmp,
     In (EGetRunnerTempDir (Ok tmp)) tr ->
     (exists rest,
        commands tr = extract_cmd setup (path_join w tmp "advinst") :: rest) /\
     (forall dir n v a ans,
        In (ECacheDir dir n v a ans) tr -> dir = path_join w tmp "advinst")).
Proof.
  intros H Hin.
  invert_runs; split_prologue; observe_more; decide_in.
  all: split; [pick|]; intros tmp' Htmp; decide_in;
    (split; [eexists; reflexivity|]); intros ? ? ? ? ? Hdir; decide_in;
    reflexivity.
Qed.

(** A cache hit stays away from the acquisition. *)
Lemma hit_commands_run (r : result string) (tr : trace) (toolRoot : string) :
  getPath_run w self r tr ->
  cache_hit self toolRoot tr ->
  never is_acquisition tr /\
  exists rest,
    registration_cmds self (exe_path toolRoot) = (commands tr ++ rest)%list.
Proof.
  intros H [Hfound Htruthy]. unfold store_answered in Hfound.
  invert_runs; split_prologue; observe_more; decide_in;
    try match goal with
      | Hf : JsString.truthy toolRoot = false |- _ =>
          rewrite Htruthy in Hf; discriminate Hf
      end;
    (split; [reflexivity|]); unfold registration_cmds;
    repeat match goal with
      | Hl : JsString.truthy (license self) = _ |- _ => rewrite Hl; clear Hl
      | Hc : enableCom self = _ |- _ => rewrite Hc; clear Hc
      end;
    eexists; reflexivity.
Qed.

(** The lookup is the first thing a run does, messages apart. *)
Lemma lookup_first_run (r : result string) (tr : trace) :
  getPath_run w self r tr ->
  exists ans rest,
    skip_info tr =
    EFind Const.advinstCacheToolName (normalizeVersionForCache (version self))
      Const.advinstCacheToolArch ans :: rest.
Proof.
  intros H. invert_run H; split_prologue; observe_more;
    do 2 eexists; reflexivity.
Qed.

End MoreRunFacts.

(** What [extract] does with the answer of the installer engine. *)
Lemma extract_policy (w : World) (self : AdvinstTool) (setupPath : string)
    (r : result string) (es : trace) :
  extract_run w self setupPath r es ->
  (forall cmd out, In (EExec cmd (Ok out)) es -> exitCode out <> 0%Z ->
     r = Throw (stdout out) /\ write_keys es = []) /\
  (forall cmd msg, In (EExec cmd (Throw msg)) es ->
     r = Throw msg /\ write_keys es = []) /\
  (forall dir n v a ans, In (ECacheDir dir n v a ans) es ->
     r = ans /\
     exists tmp out,
       In (EGetRunnerTempDir (Ok tmp)) es /\
       dir = path_join w tmp "advinst" /\
       commands es = [extract_cmd setupPath dir] /\
       In (EExec (extract_cmd setupPath dir) (Ok out)) es /\
       exitCode out = 0%Z).
Proof.
  intros H. invert_methods; observe; repeat apply conj; intros;
    decide_in;
    repeat match goal with
      | Ha : exit_outcome (Ok ?o) = _ |- _ =>
          cbn [exit_outcome] in Ha;
          destruct (exitCode o =? 0)%Z eqn:?
      | Ha : exit_outcome (Throw _) = _ |- _ => cbn [exit_outcome] in Ha
      | Ha : exit_outcome ?a = Ok tt |- _ => destruct a
      | Hz : (_ =? _)%Z = true |- _ => apply Z.eqb_eq in Hz
      | Hm : Throw _ = Throw _ |- _ => inversion Hm; subst; clear Hm
      end;
    try discriminate; try congruence; try (split; reflexivity).
  split; [reflexivity|]. do 2 eexists.
  split; [pick|]. split; [reflexivity|]. split; [reflexivity|].
  split; [pick | assumption].
Qed.

(* ===================================================================== *)
(** ** Further properties of the class *)
(* ===================================================================== *)

(** X3: [getPath] logs the notice that the version was normalised exactly
    when the requested version has fewer than three dot-separated
    components. *)
Theorem normalization_notice_iff_short (w : World) (self : AdvinstTool) :
  In (EInfo ("Normalized version " ++ version self ++ " to "
             ++ normalizeVersionForCache (version self)
             ++ " for tool-cache compatibility")) (events w self) <->
  length (JsString.split "." (version self)) < 3.
Proof.
  pose proof (notice_run w self _ _ (run_sound w self)) as Hn.
  pose proof (normalize_fixpoint_iff (version self)) as Hf.
  unfold normalization_notice in Hn. rewrite Hn, Hf. lia.
Qed.

Lemma normalization_notice_iff_short_witness :
  In (EInfo "Normalized version 2 to 2.0.0 for tool-cache compatibility")
     (events world_miss tool_2) /\
  ~ In (EInfo "Normalized version 3.5.1 to 3.5.1 for tool-cache compatibility")
       (events world_hit tool_351).
Proof.
  split.
  - apply (proj2 (normalization_notice_iff_short world_miss tool_2)).
    simpl. lia.
  - intros Hin.
    apply (proj1 (normalization_notice_iff_short world_hit tool_351)) in Hin.
    simpl in Hin. lia.
Defined.

(** X4: in [extract], a command that exits with a code other than 0 makes
    the method raise the standard output of the command, a command that
    throws makes it raise that error, and in both cases nothing is written
    to the store.  When the store is written, the command ran on the given
    installer with exit code 0, the folder cached is the [TARGETDIR] of the
    command, the [advinst] folder under the temporary directory, and the
    method ends as the write does. *)
Theorem extract_commits_only_after_success (w : World) (self : AdvinstTool)
    (setupPath : string) (h : trace) :
  (forall cmd out,
     In (EExec cmd (Ok out)) (snd (extract w self setupPath h)) ->
     exitCode out <> 0%Z ->
     fst (extract w self setupPath h) = Throw (stdout out) /\
     write_keys (snd (extract w self setupPath h)) = []) /\
  (forall cmd msg,
     In (EExec cmd (Throw msg)) (snd (extract w self setupPath h)) ->
     fst (extract w self setupPath h) = Throw msg /\
     write_keys (snd (extract w self setupPath h)) = []) /\
  (forall dir n v a ans,
     In (ECacheDir dir n v a ans) (snd (extract w self setupPath h)) ->
     fst (extract w self setupPath h) = ans /\
     exists tmp out,
       In (EGetRunnerTempDir (Ok tmp)) (snd (extract w self setupPath h)) /\
       dir = path_join w tmp "advinst" /\
       commands (snd (extract w self setupPath h)) =
         [extract_cmd setupPath dir] /\
       In (EExec (extract_cmd setupPath dir) (Ok out))
          (snd (extract w self setupPath h)) /\
       exitCode out = 0%Z).
Proof.
  exact (extract_policy w self setupPath _ _ (extract_sound w self setupPath h)).
Qed.

Lemma extract_commits_only_after_success_witness :
  (fst (extract world_miss_cmd_fails tool_2 "setup.msi" []) =
     Throw "msiexec: error 1603" /\
   write_keys (snd (extract world_miss_cmd_fails tool_2 "setup.msi" [])) = []) /\
  (fst (extract world_miss tool_2 "setup.msi" []) = Ok root_200 /\
   exists tmp out,
     In (EGetRunnerTempDir (Ok tmp))
        (snd (extract world_miss tool_2 "setup.msi" [])) /\
     "D:\a\_temp\advinst" = path_join world_miss tmp "advinst" /\
     commands (snd (extract world_miss tool_2 "setup.msi" [])) =
       [extract_cmd "setup.msi" "D:\a\_temp\advinst"] /\
     In (EExec (extract_cmd "setup.msi" "D:\a\_temp\advinst") (Ok out))
        (snd (extract world_miss tool_2 "setup.msi" [])) /\
     exitCode out = 0%Z).
Proof.
  split.
  - apply (proj1 (extract_commits_only_after_success
                    world_miss_cmd_fails tool_2 "setup.msi" [])
             (extract_cmd "setup.msi" "D:\a\_temp\advinst")
             (failure "msiexec: error 1603")).
    + vm_compute. pick.
    + discriminate.
  - apply (proj2 (proj2 (extract_commits_only_after_success
                           world_miss tool_2 "setup.msi" []))
             "D:\a\_temp\advinst" "advinst" "2.0.0" "x86" (Ok root_200)).
    vm_compute. pick.
Defined.

(** X5: errors are passed on as they are.  In every run of [getPath], a
    library call that throws is the last event of the run and [getPath]
    raises the same message; an external command that exits with a code
    other than 0 is the last event of the run and [getPath] raises the
    standard output of that command. *)
Theorem errors_end_the_run (w : World) (self : AdvinstTool) :
  (forall e msg,
     In e (events w self) -> thrown e = Some msg ->
     outcome w self = Throw msg /\ last_event (events w self) = Some e) /\
  (forall cmd out,
     In (EExec cmd (Ok out)) (events w self) -> exitCode out <> 0%Z ->
     outcome w self = Throw (stdout out) /\
     last_event (events w self) = Some (EExec cmd (Ok out))).
Proof. exact (failure_run w self _ _ (run_sound w self)). Qed.

Lemma errors_end_the_run_witness :
  (outcome world_miss_no_network tool_2 = Throw "Unexpected HTTP response: 404" /\
   last_event (events world_miss_no_network tool_2) =
     Some (EDownloadTool (default_url "2")
             (Throw "Unexpected HTTP response: 404"))) /\
  (outcome world_hit_cmd_fails tool_351 = Throw "license rejected" /\
   last_event (events world_hit_cmd_fails tool_351) =
     Some (EExec (register_cmd tool_351 (exe_path root_351))
             (Ok (failure "license rejected")))).
Proof.
  split.
  - apply (proj1 (errors_end_the_run world_miss_no_network tool_2)
             (EDownloadTool (default_url "2")
                (Throw "Unexpected HTTP response: 404"))
             "Unexpected HTTP response: 404").
    + vm_compute. pick.
    + reflexivity.
  - apply (proj2 (errors_end_the_run world_hit_cmd_fails tool_351)
             (register_cmd tool_351 (exe_path root_351))
             (failure "license rejected")).
    + vm_compute. pick.
    + discriminate.
Defined.

(** X6: when [getPath] returns a path, that path is the executable under
    the root the store answered on the lookup or assigned on the write, its
    existence was checked with a positive answer, and the environment was
    changed in exactly three steps in this order: [AdvancedInstallerRoot]
    set to the root, [AdvancedInstallerMSBuildTargets] set to the targets
    folder under the root, and the directory of the returned path added to
    the search path, which is the last event of the run. *)
Theorem returned_path_matches_environment (w : World) (self : AdvinstTool)
    (toolPath : string) :
  outcome w self = Ok toolPath ->
  exists toolRoot,
    toolPath = toolRoot ++ "\bin\x86\advancedinstaller.com" /\
    (cache_hit self toolRoot (events w self) \/
     exists dir,
       In (ECacheDir dir Const.advinstCacheToolName
             (normalizeVersionForCache (version self))
             Const.advinstCacheToolArch (Ok toolRoot)) (events w self)) /\
    In (EExists toolPath (Ok true)) (events w self) /\
    env_mutations (events w self) =
      [EExportVariable "AdvancedInstallerRoot" toolRoot;
       EExportVariable "AdvancedInstallerMSBuildTargets"
         (toolRoot ++ "\ProgramFilesFolder\MSBuild\Caphyon\Advanced Installer");
       EAddPath (path_dirname w toolPath)] /\
    last_event (events w self) = Some (EAddPath (path_dirname w toolPath)).
Proof.
  intros Hout. apply (returned_run w self).
  rewrite <- Hout. apply run_sound.
Qed.

Lemma returned_path_matches_environment_witness :
  outcome world_miss tool_2 = Ok (exe_path root_200) /\
  exists toolRoot,
    exe_path root_200 = toolRoot ++ "\bin\x86\advancedinstaller.com" /\
    env_mutations (events world_miss tool_2) =
      [EExportVariable "AdvancedInstallerRoot" toolRoot;
       EExportVariable "AdvancedInstallerMSBuildTargets"
         (toolRoot ++ "\ProgramFilesFolder\MSBuild\Caphyon\Advanced Installer");
       EAddPath (path_dirname world_miss (exe_path root_200))].
Proof.
  assert (Hout : outcome world_miss tool_2 = Ok (exe_path root_200))
    by (vm_compute; reflexivity).
  split; [exact Hout|].
  destruct (returned_path_matches_environment world_miss tool_2
              (exe_path root_200) Hout)
    as (toolRoot & Hpath & _ & _ & Henv & _).
  exists toolRoot. split; assumption.
Defined.

(** X7: nothing is retried.  Every run of [getPath] makes exactly one
    lookup in the store and at most one download, one write to the store
    and one existence check; it runs at most three external commands,
    enters each of its methods at most once and changes the environment at
    most three times. *)
Theorem nothing_is_retried (w : World) (self : AdvinstTool) :
  length (lookup_keys (events w self)) = 1 /\
  length (download_urls (events w self)) <= 1 /\
  length (write_keys (events w self)) <= 1 /\
  length (exists_checks (events w self)) <= 1 /\
  length (commands (events w self)) <= 3 /\
  (count (is_call MDownload) (events w self) <= 1 /\
   count (is_call MExtract) (events w self) <= 1 /\
   count (is_call MRegister) (events w self) <= 1 /\
   count (is_call MRegisterCom) (events w self) <= 1 /\
   count (is_call MExportVariables) (events w self) <= 1) /\
  count is_env_mutation (events w self) <= 3.
Proof. exact (bounds_run w self _ _ (run_sound w self)). Qed.

(** X8: what is downloaded is what is extracted and cached.  When
    [toolCache.downloadTool] answers a file, [extract] is invoked on that
    file; once the temporary directory is known, the first command of the
    run is [msiexec /a] on that file with the [advinst] folder under the
    temporary directory as [TARGETDIR], and any write to the store caches
    that same folder. *)
Theorem download_feeds_extraction (w : World) (self : AdvinstTool)
    (url setup : string) :
  In (EDownloadTool url (Ok setup)) (events w self) ->
  In (ECall MExtract [setup]) (events w self) /\
  (forall tmp,
     In (EGetRunnerTempDir (Ok tmp)) (events w self) ->
     (exists rest,
        commands (events w self) =
        extract_cmd setup (path_join w tmp "advinst") :: rest) /\
     (forall dir n v a ans,
        In (ECacheDir dir n v a ans) (events w self) ->
        dir = path_join w tmp "advinst")).
Proof.
  intros Hin. exact (acquisition_run w self _ _ url setup (run_sound w self) Hin).
Qed.

Lemma download_feeds_extraction_witness :
  In (ECall MExtract ["D:\a\_temp\setup"]) (events world_miss tool_2) /\
  exists rest,
    commands (events world_miss tool_2) =
    extract_cmd "D:\a\_temp\setup" "D:\a\_temp\advinst" :: rest.
Proof.
  assert (Hdl : In (EDownloadTool (default_url "2") (Ok "D:\a\_temp\setup"))
                  (events world_miss tool_2))
    by (vm_compute; pick).
  pose proof (download_feeds_extraction world_miss tool_2 _ _ Hdl)
    as [Hcall Htmp].
  split; [exact Hcall|].
  apply (Htmp "D:\a\_temp"). vm_compute. pick.
Defined.

(** X9: a cache hit stays away from the acquisition.  On a hit [getPath]
    reads neither the custom URL variable nor the temporary directory,
    downloads nothing and writes nothing to the store, and the external
    commands it runs are an initial part of the registration commands of
    the request for the executable under the cached root; the installer
    engine is never run. *)
Theorem cache_hit_runs_registration_only (w : World) (self : AdvinstTool)
    (toolRoot : string) :
  cache_hit self toolRoot (events w self) ->
  never is_acquisition (events w self) /\
  exists rest,
    registration_cmds self (exe_path toolRoot) =
    (commands (events w self) ++ rest)%list.
Proof.
  intros Hhit.
  exact (hit_commands_run w self _ _ toolRoot (run_sound w self) Hhit).
Qed.

Lemma cache_hit_runs_registration_only_witness :
  cache_hit tool_com root_351 (events world_hit tool_com) /\
  never is_acquisition (events world_hit tool_com) /\
  commands (events world_hit tool_com) =
    ["C:\tc\advinst\3.5.1\x86\bin\x86\advancedinstaller.com /RegisterCI KEY";
     "C:\tc\advinst\3.5.1\x86\bin\x86\advancedinstaller.com /REGSERVER"].
Proof.
  assert (Hhit : cache_hit tool_com root_351 (events world_hit tool_com))
    by (split; [vm_compute; pick | reflexivity]).
  pose proof (cache_hit_runs_registration_only world_hit tool_com root_351 Hhit)
    as [Hnever _].
  split; [exact Hhit|]. split; [exact Hnever | reflexivity].
Defined.

(** X10: the lookup comes first.  Apart from messages written with
    [core.info], the first thing every run of [getPath] does is the lookup
    in the store with the normalised version. *)
Theorem lookup_comes_first (w : World) (self : AdvinstTool) :
  exists ans rest,
    skip_info (events w self) =
    EFind "advinst" (normalizeVersionForCache (version self)) "x86" ans :: rest.
Proof. exact (lookup_first_run w self _ _ (run_sound w self)). Qed.

(** What [download] logs besides the request. *)
Lemma download_policy (self : AdvinstTool) (r : result string) (es : trace) :
  download_run self r es ->
  (forall url ans, In (EDownloadTool url ans) es -> r = ans) /\
  (forall msg,
     In (EGetVariable Const.advinstCustomUrlVar (Throw msg)) es ->
     r = Throw msg /\ download_urls es = []) /\
  length (download_urls es) <= 1 /\
  commands es = [] /\ lookup_keys es = [] /\ write_keys es = [] /\
  never is_env_mutation es.
Proof.
  intros H. invert_methods; observe; repeat apply conj; intros;
    decide_in; auto.
Qed.

(** How [register] and [registerCom] end. *)
Lemma register_policy (self : AdvinstTool) (toolPath : string)
    (r : result unit) (es : trace) :
  register_run self toolPath r es ->
  (forall cmd out, In (EExec cmd (Ok out)) es ->
     r = if (exitCode out =? 0)%Z then Ok tt else Throw (stdout out)) /\
  (forall cmd msg, In (EExec cmd (Throw msg)) es -> r = Throw msg) /\
  (commands es = [] -> r = Ok tt) /\
  never is_env_mutation es.
Proof.
  intros H. invert_methods; observe; repeat apply conj; intros;
    decide_in; try discriminate; reflexivity.
Qed.

Lemma registerCom_policy (self : AdvinstTool) (toolPath : string)
    (r : result unit) (es : trace) :
  registerCom_run self toolPath r es ->
  (forall cmd out, In (EExec cmd (Ok out)) es ->
     r = if (exitCode out =? 0)%Z then Ok tt else Throw (stdout out)) /\
  (forall cmd msg, In (EExec cmd (Throw msg)) es -> r = Throw msg) /\
  (commands es = [] -> r = Ok tt) /\
  never is_env_mutation es.
Proof.
  intros H. invert_methods; observe; repeat apply conj; intros;
    decide_in; try discriminate; reflexivity.
Qed.

(** X11: [download] ends as the request to [toolCache.downloadTool] ends:
    it returns the file the library answers and raises the error the
    library throws; when reading the custom URL variable throws, it raises
    that error and requests nothing.  It makes at most one request, runs no
    external command, does not touch the store and leaves the environment
    alone. *)
Theorem download_passes_the_answer_on (w : World) (self : AdvinstTool)
    (h : trace) :
  (forall url ans,
     In (EDownloadTool url ans) (snd (download w self h)) ->
     fst (download w self h) = ans) /\
  (forall msg,
     In (EGetVariable Const.advinstCustomUrlVar (Throw msg))
        (snd (download w self h)) ->
     fst (download w self h) = Throw msg /\
     download_urls (snd (download w self h)) = []) /\
  length (download_urls (snd (download w self h))) <= 1 /\
  commands (snd (download w self h)) = [] /\
  lookup_keys (snd (download w self h)) = [] /\
  write_keys (snd (download w self h)) = [] /\
  never is_env_mutation (snd (download w self h)).
Proof. exact (download_policy self _ _ (download_sound w self h)). Qed.

Lemma download_passes_the_answer_on_witness :
  fst (download world_miss tool_2 []) = Ok "D:\a\_temp\setup" /\
  fst (download world_miss_no_network tool_2 []) =
    Throw "Unexpected HTTP response: 404".
Proof.
  split.
  - apply (proj1 (download_passes_the_answer_on world_miss tool_2 [])
             (default_url "2") (Ok "D:\a\_temp\setup")).
    vm_compute. pick.
  - apply (proj1 (download_passes_the_answer_on world_miss_no_network tool_2 [])
             (default_url "2") (Throw "Unexpected HTTP response: 404")).
    vm_compute. pick.
Defined.

(** X12: [register] and [registerCom] end as their command ends: with
    exit code 0 they return, with any other exit code they raise the
    standard output of the command, and when running the command throws
    they raise that error; when they run no command they return.  Neither
    changes the environment. *)
Theorem registration_ends_as_its_command (w : World) (self : AdvinstTool)
    (toolPath : string) (h : trace) :
  ((forall cmd out,
      In (EExec cmd (Ok out)) (snd (register w self toolPath h)) ->
      fst (register w self toolPath h) =
        if (exitCode out =? 0)%Z then Ok tt else Throw (stdout out)) /\
   (forall cmd msg,
      In (EExec cmd (Throw msg)) (snd (register w self toolPath h)) ->
      fst (register w self toolPath h) = Throw msg) /\
   (commands (snd (register w self toolPath h)) = [] ->
    fst (register w self toolPath h) = Ok tt) /\
   never is_env_mutation (snd (register w self toolPath h))) /\
  ((forall cmd out,
      In (EExec cmd (Ok out)) (snd (registerCom w self toolPath h)) ->
      fst (registerCom w self toolPath h) =
        if (exitCode out =? 0)%Z then Ok tt else Throw (stdout out)) /\
   (forall cmd msg,
      In (EExec cmd (Throw msg)) (snd (registerCom w self toolPath h)) ->
      fst (registerCom w self toolPath h) = Throw msg) /\
   (commands (snd (registerCom w self toolPath h)) = [] ->
    fst (registerCom w self toolPath h) = Ok tt) /\
   never is_env_mutation (snd (registerCom w self toolPath h))).
Proof.
  split.
  - exact (register_policy self toolPath _ _ (register_sound w self toolPath h)).
  - exact (registerCom_policy self toolPath _ _
             (registerCom_sound w self toolPath h)).
Qed.

Lemma registration_ends_as_its_command_witness :
  fst (register world_hit_cmd_fails tool_com "advinst.com" []) =
    Throw "license rejected" /\
  fst (registerCom world_hit tool_com "advinst.com" []) = Ok tt /\
  fst (register world_hit_cmd_fails tool_2 "advinst.com" []) = Ok tt.
Proof.
  split; [|split].
  - apply (proj1 (proj1 (registration_ends_as_its_command
                           world_hit_cmd_fails tool_com "advinst.com" []))
             (register_cmd tool_com "advinst.com") (failure "license rejected")).
    vm_compute. pick.
  - apply (proj1 (proj2 (registration_ends_as_its_command
                           world_hit tool_com "advinst.com" []))
             (registerCom_cmd "advinst.com") success).
    vm_compute. pick.
  - apply (proj1 (proj2 (proj2 (proj1 (registration_ends_as_its_command
                           world_hit_cmd_fails tool_2 "advinst.com" []))))).
    reflexivity.
Defined.
